(** * bitcoin_exporter.py: a shallow embedding and its verified properties

    The exporter discovers the pods of a StatefulSet by DNS, asks each pod
    for three JSON-RPC results, and prints the figures in the Prometheus
    text format.  This file embeds [make_bitcoin_rpc_call],
    [discover_bitcoin_pods], [get_pod_metrics] and
    [BitcoinMetricsHandler.do_GET] and proves the properties the
    specification states about them.

    Conventions of the embedding:
    - a Python value is a term of [value]; [VNone] is Python's [None], which
      is also what the specification calls an absent RPC result;
    - text ([str] and [bytes] alike) is a [string] holding the UTF-8
      encoding, so that [str.encode()] is the identity;
    - code that can raise runs in the monad [M], which threads the log of
      the effects (HTTP attempts, DNS probes, printed lines) and returns
      either a value or the exception raised;
    - the network, the resolver, the process environment and the library
      functions whose code is not in the repository are parameters of
      [Section Exporter]. *)

From Stdlib Require Import ZArith String Ascii List Floats.SpecFloat DecimalString.
From Stdlib Require Import Sorting.Permutation Lia.
From stdpp Require Import base gmap strings list.

Set Warnings "-register-all".
Set Default Proof Using "Type".
Local Open Scope string_scope.
Local Open Scope list_scope.

(** ** Text *)

Definition nl : string := String "010"%char EmptyString.
Definition dq : string := String "034"%char EmptyString.

(** [str.split(sep)] for a one-character separator: never the empty list. *)
Fixpoint split_on (sep : ascii) (s : string) : list string :=
  match s with
  | EmptyString => [EmptyString]
  | String c s' =>
      if Ascii.eqb c sep then EmptyString :: split_on sep s'
      else match split_on sep s' with
           | w :: ws => String c w :: ws
           | [] => [String c EmptyString]
           end
  end.

Fixpoint contains_char (c : ascii) (s : string) : bool :=
  match s with
  | EmptyString => false
  | String a s' => Ascii.eqb a c || contains_char c s'
  end.

Fixpoint starts_with (p s : string) : bool :=
  match p, s with
  | EmptyString, _ => true
  | String a p', String b s' => Ascii.eqb a b && starts_with p' s'
  | String _ _, EmptyString => false
  end.

Fixpoint ends_with_nl (s : string) : bool :=
  match s with
  | EmptyString => false
  | String c EmptyString => Ascii.eqb c "010"%char
  | String _ s' => ends_with_nl s'
  end.

(** [f"{i}"] for a natural number. *)
Definition str_of_nat (i : nat) : string := NilEmpty.string_of_uint (Nat.to_uint i).
Definition str_of_Z (n : Z) : string := NilEmpty.string_of_int (Z.to_int n).

(** A byte that continues a multi-byte UTF-8 sequence (10xxxxxx). *)
Definition is_continuation (c : ascii) : bool :=
  let n := nat_of_ascii c in (128 <=? n)%nat && (n <? 192)%nat.

(** [len] of a [str]: its number of code points. *)
Fixpoint code_points (s : string) : nat :=
  match s with
  | EmptyString => 0
  | String c s' => (if is_continuation c then 0 else 1) + code_points s'
  end.

(** The UTF-8 decoder as an automaton; a text is valid when the run from
    [U0] ends in [U0]. *)
Inductive u8state : Set := U0 | U1 | U2 | U3 | UE0 | UED | UF0 | UF4 | UBad.

Definition between (lo hi n : nat) : bool := (lo <=? n)%nat && (n <=? hi)%nat.

Definition u8step (q : u8state) (c : ascii) : u8state :=
  let n := nat_of_ascii c in
  match q with
  | U0 =>
      if (n <? 128)%nat then U0
      else if between 194 223 n then U1
      else if (n =? 224)%nat then UE0
      else if between 225 236 n || between 238 239 n then U2
      else if (n =? 237)%nat then UED
      else if (n =? 240)%nat then UF0
      else if between 241 243 n then U3
      else if (n =? 244)%nat then UF4
      else UBad
  | U1 => if between 128 191 n then U0 else UBad
  | U2 => if between 128 191 n then U1 else UBad
  | U3 => if between 128 191 n then U2 else UBad
  | UE0 => if between 160 191 n then U1 else UBad
  | UED => if between 128 159 n then U1 else UBad
  | UF0 => if between 144 191 n then U2 else UBad
  | UF4 => if between 128 143 n then U2 else UBad
  | UBad => UBad
  end.

Fixpoint u8run (q : u8state) (s : string) : u8state :=
  match s with
  | EmptyString => q
  | String c s' => u8run (u8step q c) s'
  end.

Definition utf8_valid (s : string) : bool :=
  match u8run U0 s with U0 => true | _ => false end.

(** ** Python values *)

(** What [json.loads] can return, and what the exporter passes around. *)
Inductive value : Type :=
| VNone
| VBool (b : bool)
| VInt (n : Z)
| VFloat (f : spec_float)
| VStr (s : string)
| VList (l : list value)
| VDict (d : gmap string value).

(** [bool(v)], the test of [if v:] and of [v or w]. *)
Definition truthy (v : value) : bool :=
  match v with
  | VNone => false
  | VBool b => b
  | VInt n => negb (n =? 0)%Z
  | VFloat f => negb (SFeqb f (S754_zero false))
  | VStr s => negb (String.eqb s EmptyString)
  | VList l => match l with [] => false | _ :: _ => true end
  | VDict d => negb (size d =? 0)%nat
  end.

(** [v is not None] *)
Definition is_not_None (v : value) : bool :=
  match v with VNone => false | _ => true end.

(** ** Exceptions and effects *)

Inductive exn_class : Set :=
| URLError | HTTPError | TimeoutError | UnicodeDecodeError | JSONDecodeError
| AttributeError | TypeError | ValueError | IndexError | UnicodeError
| UnicodeEncodeError | gaierror.

(** An exception object: its class and what [str(e)] gives. *)
Record exn : Set := Exn { exn_cls : exn_class; exn_msg : string }.

Definition is_gaierror (e : exn) : bool :=
  match exn_cls e with gaierror => true | _ => false end.

(** What [urllib.request.Request] holds once the headers are added. *)
Record request : Set := Request {
  req_url : string;
  req_data : string;
  req_headers : list (string * string)
}.

(** [str.capitalize()] on ASCII letters: the first upper, the others lower. *)
Definition ascii_upper (c : ascii) : ascii :=
  let n := nat_of_ascii c in
  if (97 <=? n)%nat && (n <=? 122)%nat then ascii_of_nat (n - 32) else c.

Definition ascii_lower (c : ascii) : ascii :=
  let n := nat_of_ascii c in
  if (65 <=? n)%nat && (n <=? 90)%nat then ascii_of_nat (n + 32) else c.

Fixpoint str_lower (s : string) : string :=
  match s with
  | EmptyString => EmptyString
  | String c s' => String (ascii_lower c) (str_lower s')
  end.

Definition capitalize (s : string) : string :=
  match s with
  | EmptyString => EmptyString
  | String c s' => String (ascii_upper c) (str_lower s')
  end.

(** [d[k] = v] on a dict kept in insertion order. *)
Fixpoint dict_set (k v : string) (d : list (string * string)) : list (string * string) :=
  match d with
  | [] => [(k, v)]
  | (k', v') :: d' =>
      if String.eqb k k' then (k, v) :: d' else (k', v') :: dict_set k v d'
  end.

(** [Request.add_header(key, val)]: [self.headers[key.capitalize()] = val]. *)
Definition add_header (r : request) (k v : string) : request :=
  {| req_url := req_url r; req_data := req_data r;
     req_headers := dict_set (capitalize k) v (req_headers r) |}.


(** The observable effects, in the order they happened. *)
Record effects : Set := Effects {
  http_log : list (request * Z);   (* each [urlopen(request, timeout)] *)
  dns_log : list string;           (* each [socket.gethostbyname(host)] *)
  stdout : list string             (* each [print(line)] *)
}.

Definition no_effects : effects :=
  {| http_log := []; dns_log := []; stdout := [] |}.

Inductive outcome (A : Type) : Type :=
| Ok (a : A)
| Raise (e : exn).
Arguments Ok {A} a.
Arguments Raise {A} e.

Definition M (A : Type) : Type := effects -> outcome A * effects.

Definition ret {A} (a : A) : M A := fun st => (Ok a, st).

Definition raise {A} (e : exn) : M A := fun st => (Raise e, st).

Definition bind {A B} (c : M A) (k : A -> M B) : M B :=
  fun st =>
    match c st with
    | (Ok a, st') => k a st'
    | (Raise e, st') => (Raise e, st')
    end.

(** [try: body / except Exception as e: handler e] *)
Definition try_except {A} (body : M A) (handler : exn -> M A) : M A :=
  fun st =>
    match body st with
    | (Ok a, st') => (Ok a, st')
    | (Raise e, st') => handler e st'
    end.

(** A library call that returns or raises without touching the logs. *)
Definition lift {A} (r : exn + A) : M A :=
  match r with
  | inl e => raise e
  | inr a => ret a
  end.

Definition print (line : string) : M unit :=
  fun st =>
    (Ok tt, {| http_log := http_log st; dns_log := dns_log st;
               stdout := stdout st ++ [line] |}).

Declare Scope py_scope.
Delimit Scope py_scope with py.
Notation "x <- c ;; k" := (bind c (fun x => k))
  (at level 100, c at next level, right associativity) : py_scope.
Notation "c ;;; k" := (bind c (fun _ => k))
  (at level 100, right associativity) : py_scope.
Local Open Scope py_scope.

(** [v.get(key, default)]: only a [dict] has the attribute. *)
Definition py_get (v : value) (key : string) (default : value) : exn + value :=
  match v with
  | VDict d => inr (match d !! key with Some x => x | None => default end)
  | _ => inl (Exn AttributeError "object has no attribute 'get'")
  end.

(** [len(v)]: numbers, booleans and [None] have no length. *)
Definition py_len (v : value) : exn + Z :=
  match v with
  | VStr s => inr (Z.of_nat (code_points s))
  | VList l => inr (Z.of_nat (length l))
  | VDict d => inr (Z.of_nat (size d))
  | _ => inl (Exn TypeError "object has no len()")
  end.

(** [a or b] on an optional text: [None] and the empty text are falsy. *)
Definition str_or (a : option string) (b : string) : string :=
  match a with
  | Some s => if String.eqb s EmptyString then b else s
  | None => b
  end.

(** ** The metrics record *)

(** The dict [get_pod_metrics] returns, one field per key. *)
Record metrics : Type := Metrics {
  pod : string;
  host : string;
  blocks : value;
  peers : value;
  connections : value;
  difficulty : value;
  verification_progress : value;
  healthy : bool
}.

(** What [do_GET] hands to the HTTP layer: [send_response], the
    [send_header] calls and the bytes written to [wfile]. *)
Record response : Set := Response {
  status : Z;
  headers : list (string * string);
  body : string
}.

(** The two ways one turn of the discovery loop ends. *)
Inductive loop_step (A : Type) : Type :=
| Continue (a : A)
| Break.
Arguments Continue {A} a.
Arguments Break {A}.

(** [try: body / except cls: handler]: other classes propagate. *)
Definition try_except_if {A} (catches : exn -> bool) (body : M A)
    (handler : exn -> M A) : M A :=
  fun st =>
    match body st with
    | (Ok a, st') => (Ok a, st')
    | (Raise e, st') => if catches e then handler e st' else (Raise e, st')
    end.

(** *** The thread pool *)

(** [ThreadPoolExecutor(max_workers=n)] refuses an empty pool. *)
Definition ThreadPoolExecutor (max_workers : nat) : M unit :=
  if (max_workers =? 0)%nat
  then raise (Exn ValueError "max_workers must be greater than 0")
  else ret tt.

(** [executor.submit(fn, arg)]: the call runs in a worker thread.  The
    future keeps what it returned or raised; the effects are those of the
    call alone, found by running it on empty logs (nothing in the exporter
    reads the logs), and are merged with those of the other threads when the
    pool is left. *)
Definition submit {A B} (fn : A -> M B) (arg : A) : outcome B * effects :=
  fn arg no_effects.

(** The head of the [i]-th queue that is not empty (of the last such queue
    when there are fewer), and the queues without it. *)
Fixpoint take_from {A} (i : nat) (queues : list (list A)) : option (A * list (list A)) :=
  match queues with
  | [] => None
  | [] :: rest =>
      match take_from i rest with
      | Some (x, rest') => Some (x, [] :: rest')
      | None => None
      end
  | (x :: q) :: rest =>
      match i with
      | O => Some (x, q :: rest)
      | S i' =>
          match take_from i' rest with
          | Some (y, rest') => Some (y, (x :: q) :: rest')
          | None => Some (x, q :: rest)
          end
      end
  end.

(** The threads take their steps one at a time, [pick t] choosing the thread
    of the [t]-th step: each thread keeps the order of its own effects. *)
Fixpoint interleave {A} (fuel : nat) (pick : nat -> nat) (t : nat)
    (queues : list (list A)) : list A :=
  match fuel with
  | O => []
  | S fuel' =>
      match take_from (pick t) queues with
      | Some (x, queues') => x :: interleave fuel' pick (S t) queues'
      | None => []
      end
  end.

Definition merge_logs {A} (pick : nat -> nat) (queues : list (list A)) : list A :=
  interleave (length (concat queues)) pick 0 queues.

(** The dict comprehension of line 164 and the exit of the [with] block: one
    future per argument, in submission order, and the effects of the threads
    interleaved. *)
Definition submit_all {A B} (pick : nat -> nat) (fn : A -> M B) (args : list A)
    : M (list (outcome B)) :=
  fun st =>
    let runs := map (submit fn) args in
    (Ok (map fst runs),
     {| http_log := http_log st ++ merge_logs pick (map (fun r => http_log (snd r)) runs);
        dns_log := dns_log st ++ merge_logs pick (map (fun r => dns_log (snd r)) runs);
        stdout := stdout st ++ merge_logs pick (map (fun r => stdout (snd r)) runs) |}).

(** [future.result()] returns the value or raises again what the call raised. *)
Definition future_result {A} (f : outcome A) : M A :=
  match f with
  | Ok a => ret a
  | Raise e => raise e
  end.

Fixpoint insert_by_time {A} (t : nat) (x : A) (l : list (nat * A)) : list (nat * A) :=
  match l with
  | [] => [(t, x)]
  | (t', y) :: l' =>
      if (t <=? t')%nat then (t, x) :: (t', y) :: l'
      else (t', y) :: insert_by_time t x l'
  end.

Fixpoint sort_by_time {A} (l : list (nat * A)) : list (nat * A) :=
  match l with
  | [] => []
  | (t, x) :: l' => insert_by_time t x (sort_by_time l')
  end.

(** [as_completed(futures)]: the futures in the order they finish, the
    [i]-th submitted one finishing at time [finish i]. *)
Definition as_completed {A} (finish : nat -> nat) (futures : list A) : list A :=
  map snd (sort_by_time (combine (map finish (seq 0 (length futures))) futures)).

(** ** Worlds used in the examples *)

Definition environ_empty : string -> option string := fun _ => None.

Definition environ_broken_name : string -> option string :=
  fun k => if String.eqb k "BITCOIN_SERVICE_NAME" then Some ("a" +:+ nl +:+ "b") else None.

Definition b64_stub : string -> string := fun s => s.
Definition repr_stub : value -> string := fun _ => "?".

Definition pod0 : string := "bitcoin-stack-0.bitcoin-stack.bitcoin.svc.cluster.local".
Definition pod1 : string := "bitcoin-stack-1.bitcoin-stack.bitcoin.svc.cluster.local".
Definition pod2 : string := "bitcoin-stack-2.bitcoin-stack.bitcoin.svc.cluster.local".

(** A resolver that knows the first two pods only. *)
Definition dns_two : string -> exn + string :=
  fun h =>
    if String.eqb h pod0 || String.eqb h pod1 then inr "10.0.0.1"
    else inl (Exn gaierror "Name or service not known").

Definition dns_all : string -> exn + string := fun _ => inr "10.0.0.1".

Definition dns_none : string -> exn + string :=
  fun _ => inl (Exn gaierror "Name or service not known").

(** A network on which every connection is refused. *)
Definition net_down : request -> Z -> exn + string :=
  fun _ _ => inl (Exn URLError "Connection refused").

(** A network that answers every request with the body it is given. *)
Definition net_const (b : string) : request -> Z -> exn + string :=
  fun _ _ => inr b.

(** The bodies are stood for by short tags, and the request body by the
    method it names. *)
Definition dumps_method : value -> string :=
  fun v =>
    match v with
    | VDict d => match d !! "method" with Some (VStr m) => m | _ => "?" end
    | _ => "?"
    end.

Definition net_by_method (chain peer net : exn + string) : request -> Z -> exn + string :=
  fun r _ =>
    if String.eqb (req_data r) "getblockchaininfo" then chain
    else if String.eqb (req_data r) "getpeerinfo" then peer
    else net.

Definition two_float : spec_float := S754_finite false 4503599627370496 (-51).
Definition one_float : spec_float := S754_finite false 4503599627370496 (-52).

Definition envelope (v : value) : value := VDict {[ "result" := v; "error" := VNone ]}.

Definition loads_tags : string -> exn + value :=
  fun b =>
    if String.eqb b "empty-dict" then inr (envelope (VDict ∅))
    else if String.eqb b "chain" then
      inr (envelope (VDict {[ "blocks" := VInt 800000;
                              "difficulty" := VInt 1;
                              "verificationprogress" := VFloat one_float ]}))
    else if String.eqb b "progress-two" then
      inr (envelope (VDict {[ "blocks" := VInt 1;
                              "verificationprogress" := VFloat two_float ]}))
    else if String.eqb b "a-list" then inr (envelope (VList [VInt 1]))
    else if String.eqb b "five" then inr (envelope (VInt 5))
    else if String.eqb b "no-result" then inr (VDict {[ "error" := VStr "boom" ]})
    else if String.eqb b "peers-two" then inr (envelope (VList [VDict ∅; VDict ∅]))
    else if String.eqb b "net" then inr (envelope (VDict {[ "connections" := VInt 5 ]}))
    else inl (Exn JSONDecodeError "Expecting value").

Definition refused : exn + string := inl (Exn URLError "Connection refused").

(** A node that answers the blockchain call only. *)
Definition net_chain_only (tag : string) : request -> Z -> exn + string :=
  net_by_method (inr tag) refused refused.

(** A node whose blockchain call fails and whose other two calls answer. *)
Definition net_chain_down : request -> Z -> exn + string :=
  net_by_method refused (inr "peers-two") (inr "net").


Definition value_of {A} (o : outcome A) : option A :=
  match o with
  | Ok a => Some a
  | Raise _ => None
  end.

Definition sample_record : metrics :=
  {| pod := "bitcoin-stack-0"; host := pod0;
     blocks := VInt 800000; peers := VInt 8; connections := VInt 10;
     difficulty := VInt 55; verification_progress := VInt 1; healthy := true |}.

(** A record whose pod name holds a line break. *)
Definition broken_name_record : metrics :=
  {| pod := "a" +:+ nl +:+ "b"; host := "a" +:+ nl +:+ "b.svc";
     blocks := VInt 0; peers := VInt 0; connections := VInt 0;
     difficulty := VInt 0; verification_progress := VInt 0; healthy := false |}.

(** A resolver that rejects every name before looking it up, as the IDNA
    encoder does for a label of more than 63 characters. *)
Definition dns_bad_label : string -> exn + string :=
  fun _ => inl (Exn UnicodeError "label empty or too long").

(** A resolver that knows the first pod and rejects the name of the second. *)
Definition dns_one_then_bad : string -> exn + string :=
  fun h =>
    if String.eqb h pod0 then inr "10.0.0.1"
    else inl (Exn UnicodeError "label empty or too long").

Definition environ_dotted_name : string -> option string :=
  fun k => if String.eqb k "BITCOIN_SERVICE_NAME" then Some "btc" else None.

(** The documents of [loads_tags] with an [error] member that reports a
    failure. *)
Definition loads_with_error : string -> exn + value :=
  fun b =>
    match loads_tags b with
    | inr (VDict d) => inr (VDict (<[ "error" := VStr "boom" ]> d))
    | r => r
    end.

(** [Request] accepts every URL. *)
Definition url_ok : string -> option exn := fun _ => None.

(** [Request] rejects every URL, as it does for a host with an unbalanced
    bracket. *)
Definition url_rejected : string -> option exn :=
  fun _ => Some (Exn ValueError "Invalid IPv6 URL").

(** A password whose one byte is not UTF-8: [os.getenv] gives a lone
    surrogate for it. *)
Definition environ_bad_password : string -> option string :=
  fun k =>
    if String.eqb k "BITCOIN_PASSWORD" then Some (String "255"%char EmptyString) else None.

Definition encode_stub : string -> string := fun _ => "surrogates not allowed".
Definition head_stub : Z -> string := fun _ => "HTTP/1.0 500 Internal Server Error".
Definition pick_first : nat -> nat := fun _ => 0%nat.
Definition pick_turns : nat -> nat := fun t => t.

Definition finish_reverse : nat -> nat := fun i => (10 - i)%nat.
Definition finish_same : nat -> nat := fun _ => 0%nat.

(** ** The exporter *)

Section Exporter.

(** [os.environ] *)
Variable environ : string -> option string.
(** [urlopen(request, timeout)] followed by [response.read()]: the body, or
    the exception raised (refused connection, timeout, HTTP error status). *)
Variable urlopen : request -> Z -> exn + string.
(** [json.loads(body.decode('utf-8'))]: the document, or the exception of a
    body that does not decode. *)
Variable json_loads : string -> exn + value.
(** [json.dumps(v).encode('utf-8')] *)
Variable json_dumps : value -> string.
(** [base64.b64encode(bytes).decode('utf-8')] *)
Variable b64encode : string -> string.
(** [urllib.request.Request(url, data)]: the exception it raises for a URL
    it rejects (no scheme, an unbalanced bracket in the host), if any. *)
Variable request_rejects : string -> option exn.
(** [str(e)] for the [UnicodeEncodeError] that [s.encode('utf-8')] raises. *)
Variable encode_message : string -> string.
(** [socket.gethostbyname(host)]: the address, or the exception raised. *)
Variable gethostbyname : string -> exn + string.
(** [str(v)] for floats, lists and dicts. *)
Variable py_repr : value -> string.
(** What [send_response(code)] followed by [end_headers()] writes: the
    status line, the [Server] and [Date] headers and the empty line. *)
Variable response_head : Z -> string.
(** When the [i]-th submitted future finishes. *)
Variable finish : nat -> nat.
(** Which of the worker threads that still have something to do takes the
    [t]-th step. *)
Variable pick : nat -> nat.

(** [s.encode('utf-8')]: a text whose bytes are not valid UTF-8 stands for a
    [str] with lone surrogates (what [os.getenv] makes of undecodable bytes,
    what [json.loads] makes of an unpaired escape), which do not encode. *)
Definition py_encode (s : string) : exn + string :=
  if utf8_valid s then inr s
  else inl (Exn UnicodeEncodeError (encode_message s)).

(** [os.getenv(key, default)] *)
Definition getenv (key default : string) : string :=
  match environ key with
  | Some v => v
  | None => default
  end.

(** [f"{v}"] *)
Definition py_str (v : value) : string :=
  match v with
  | VNone => "None"
  | VBool true => "True"
  | VBool false => "False"
  | VInt n => str_of_Z n
  | VStr s => s
  | VFloat _ | VList _ | VDict _ => py_repr v
  end.

Definition urlopen_read (r : request) (timeout : Z) : M string :=
  fun st =>
    (match urlopen r timeout with inl e => Raise e | inr b => Ok b end,
     {| http_log := http_log st ++ [(r, timeout)]; dns_log := dns_log st;
        stdout := stdout st |}).

Definition resolve (h : string) : M string :=
  fun st =>
    (match gethostbyname h with inl e => Raise e | inr a => Ok a end,
     {| http_log := http_log st; dns_log := dns_log st ++ [h];
        stdout := stdout st |}).

(** Lines 21-47: the request, or the exception raised while building it. *)
Definition rpc_request_for (method : string) (params : value)
    (target_host : option string) : exn + request :=
  let host := str_or target_host
                (getenv "BITCOIN_HOST" "bitcoin-stack.bitcoin.svc.cluster.local") in
  let port := getenv "BITCOIN_PORT" "18332" in
  let user := getenv "BITCOIN_USER" "bitcoin" in
  let password := getenv "BITCOIN_PASSWORD" "bitcoin" in
  let url := "http://" +:+ host +:+ ":" +:+ port in
  let rpc_request : gmap string value :=
    {[ "jsonrpc" := VStr "1.0";
       "id" := VStr "exporter";
       "method" := VStr method;
       "params" := (if truthy params then params else VList []) ]} in
  let data := json_dumps (VDict rpc_request) in
  match request_rejects url with
  | Some e => inl e
  | None =>
      let request := {| req_url := url; req_data := data; req_headers := [] |} in
      let request := add_header request "Content-Type" "application/json" in
      let credentials := user +:+ ":" +:+ password in
      match py_encode credentials with
      | inl e => inl e
      | inr credentials_bytes =>
          let encoded_credentials := b64encode credentials_bytes in
          inr (add_header request "Authorization" ("Basic " +:+ encoded_credentials))
      end
  end.

(** Lines 17-56. *)
Definition make_bitcoin_rpc_call (method : string) (params : value)
    (target_host : option string) : M value :=
  try_except
    (request <- lift (rpc_request_for method params target_host) ;;
     response_body <- urlopen_read request 10 ;;
     result <- lift (json_loads response_body) ;;
     lift (py_get result "result" VNone))
    (fun e => ret VNone).

(** [f"{service_name}-{i}.{base_host}"] *)
Definition pod_host_of (service_name base_host : string) (i : nat) : string :=
  service_name +:+ "-" +:+ str_of_nat i +:+ "." +:+ base_host.

(** The [for i in range(10)] loop of lines 72-83, on what is left of the
    range and the pods found so far. *)
Fixpoint discover_loop (service_name base_host : string) (range : list nat)
    (pods : list string) : M (list string) :=
  match range with
  | [] => ret pods
  | i :: range' =>
      let pod_host := pod_host_of service_name base_host i in
      step <- try_except_if is_gaierror
                (resolve pod_host ;;;
                 print ("Discovered Bitcoin pod: " +:+ pod_host) ;;;
                 ret (Continue (pods ++ [pod_host])))
                (fun _ =>
                   (if (i =? 0)%nat
                    then print ("Warning: No Bitcoin pods found starting from " +:+ pod_host)
                    else ret tt) ;;;
                   ret Break) ;;
      match step with
      | Continue pods' => discover_loop service_name base_host range' pods'
      | Break => ret pods
      end
  end.

(** Lines 58-88. *)
Definition discover_bitcoin_pods : M (list string) :=
  let service_name := getenv "BITCOIN_SERVICE_NAME" "bitcoin-stack" in
  let namespace := getenv "BITCOIN_NAMESPACE" "bitcoin" in
  let base_host := service_name +:+ "." +:+ namespace +:+ ".svc.cluster.local" in
  pods <- discover_loop service_name base_host (seq 0 10) [] ;;
  (match pods with
   | [] => print ("Warning: No Bitcoin pods discovered for service " +:+ service_name
                  +:+ " in namespace " +:+ namespace)
   | _ :: _ => ret tt
   end) ;;;
  ret pods.

(** [pod_host.split('.')[0]] *)
Definition first_label (pod_host : string) : M string :=
  match split_on "."%char pod_host with
  | name :: _ => ret name
  | [] => raise (Exn IndexError "list index out of range")
  end.

(** Lines 90-142. *)
Definition get_pod_metrics (pod_host : string) : M metrics :=
  try_except
    (data <- make_bitcoin_rpc_call "getblockchaininfo" VNone (Some pod_host) ;;
     chain <- (if truthy data then
                 blocks <- lift (py_get data "blocks" (VInt 0)) ;;
                 difficulty <- lift (py_get data "difficulty" (VInt 0)) ;;
                 verification_progress <- lift (py_get data "verificationprogress" (VInt 0)) ;;
                 ret (blocks, difficulty, verification_progress)
               else ret (VInt 0, VInt 0, VInt 0)) ;;
     peers <- make_bitcoin_rpc_call "getpeerinfo" VNone (Some pod_host) ;;
     peer_count <- (if truthy peers then lift (py_len peers) else ret 0%Z) ;;
     network_data <- make_bitcoin_rpc_call "getnetworkinfo" VNone (Some pod_host) ;;
     connections <- (if truthy network_data
                     then lift (py_get network_data "connections" (VInt 0))
                     else ret (VInt 0)) ;;
     pod_name <- first_label pod_host ;;
     ret {| pod := pod_name;
            host := pod_host;
            blocks := fst (fst chain);
            peers := VInt peer_count;
            connections := connections;
            difficulty := snd (fst chain);
            verification_progress := snd chain;
            healthy := is_not_None data |})
    (fun e =>
       pod_name <- first_label pod_host ;;
       ret {| pod := pod_name;
              host := pod_host;
              blocks := VInt 0;
              peers := VInt 0;
              connections := VInt 0;
              difficulty := VInt 0;
              verification_progress := VInt 0;
              healthy := false |}).

(** The [for future in as_completed(...)] loop of lines 165-167. *)
Fixpoint gather (futures : list (outcome metrics)) (all_metrics : list metrics)
    : M (list metrics) :=
  match futures with
  | [] => ret all_metrics
  | future :: futures' =>
      m <- future_result future ;;
      gather futures' (all_metrics ++ [m])
  end.

(** Lines 162-167: the pool, one future per pod, the results as they finish. *)
Definition collect_all (pods : list string) : M (list metrics) :=
  ThreadPoolExecutor (length pods) ;;;
  future_to_pod <- submit_all pick get_pod_metrics pods ;;
  gather (as_completed finish future_to_pod) [].

(** Lines 151-157: the pod used when discovery found none. *)
Definition fallback_host : string :=
  let service_name := getenv "BITCOIN_SERVICE_NAME" "bitcoin-stack" in
  let namespace := getenv "BITCOIN_NAMESPACE" "bitcoin" in
  service_name +:+ "-0." +:+ service_name +:+ "." +:+ namespace +:+ ".svc.cluster.local".

Definition with_fallback (pods : list string) : M (list string) :=
  match pods with
  | [] =>
      print ("Using fallback pod: " +:+ fallback_host) ;;;
      ret [fallback_host]
  | _ :: _ => ret pods
  end.

(** Lines 149-167: from discovery to the list of records. *)
Definition collect_metrics : M (list metrics) :=
  pods <- discover_bitcoin_pods ;;
  pods <- with_fallback pods ;;
  print ("Collecting metrics from " +:+ str_of_nat (length pods) +:+ " Bitcoin pods") ;;;
  collect_all pods.

(** The text one turn of the loop of lines 172-194 appends. *)
Definition render_block (pod_metrics : metrics) : string :=
  let pod_name := pod pod_metrics in
  let pod_label := "pod=" +:+ dq +:+ pod_name +:+ dq in
  "# HELP bitcoin_blocks Current block height" +:+ nl +:+
  "# TYPE bitcoin_blocks gauge" +:+ nl +:+
  "bitcoin_blocks{" +:+ pod_label +:+ "} " +:+ py_str (blocks pod_metrics) +:+ nl +:+
  "# HELP bitcoin_peers Number of connected peers" +:+ nl +:+
  "# TYPE bitcoin_peers gauge" +:+ nl +:+
  "bitcoin_peers{" +:+ pod_label +:+ "} " +:+ py_str (peers pod_metrics) +:+ nl +:+
  "# HELP bitcoin_connections Number of network connections" +:+ nl +:+
  "# TYPE bitcoin_connections gauge" +:+ nl +:+
  "bitcoin_connections{" +:+ pod_label +:+ "} " +:+ py_str (connections pod_metrics) +:+ nl +:+
  "# HELP bitcoin_difficulty Current network difficulty" +:+ nl +:+
  "# TYPE bitcoin_difficulty gauge" +:+ nl +:+
  "bitcoin_difficulty{" +:+ pod_label +:+ "} " +:+ py_str (difficulty pod_metrics) +:+ nl +:+
  "# HELP bitcoin_verification_progress Blockchain verification progress (0-1)" +:+ nl +:+
  "# TYPE bitcoin_verification_progress gauge" +:+ nl +:+
  "bitcoin_verification_progress{" +:+ pod_label +:+ "} "
    +:+ py_str (verification_progress pod_metrics) +:+ nl +:+
  "# HELP bitcoin_pod_healthy Bitcoin pod health status" +:+ nl +:+
  "# TYPE bitcoin_pod_healthy gauge" +:+ nl +:+
  "bitcoin_pod_healthy{" +:+ pod_label +:+ "} "
    +:+ py_str (if healthy pod_metrics then VInt 1 else VInt 0) +:+ nl.

(** Lines 170-194: [metrics_output] starts empty and grows by one block per
    record. *)
Definition render (all_metrics : list metrics) : string :=
  fold_left (fun metrics_output pod_metrics => metrics_output +:+ render_block pod_metrics)
            all_metrics EmptyString.

(** Lines 170-199: the answer to a scrape once the records are there, when
    the text encodes. *)
Definition metrics_response (all_metrics : list metrics) : response :=
  let metrics_output := render all_metrics in
  {| status := 200;
     headers := [("Content-type", "text/plain")];
     body := metrics_output |}.

(** Lines 196-199 with the [except] branch they can reach: the 200 head and
    the header are written before [metrics_output.encode()] runs, so when the
    text does not encode what follows them on the wire, and what the client
    reads as the body, is the 500 head and the error text of lines 201-203. *)
Definition metrics_answer (all_metrics : list metrics) : response :=
  match py_encode (render all_metrics) with
  | inr metrics_bytes =>
      {| status := 200;
         headers := [("Content-type", "text/plain")];
         body := metrics_bytes |}
  | inl e =>
      {| status := 200;
         headers := [("Content-type", "text/plain")];
         body := response_head 500 +:+ "Error: " +:+ exn_msg e |}
  end.

(** Lines 145-211. *)
Definition do_GET (path : string) : M response :=
  if String.eqb path "/metrics" then
    try_except
      (all_metrics <- collect_metrics ;;
       ret (metrics_answer all_metrics))
      (fun e =>
         ret {| status := 500; headers := []; body := "Error: " +:+ exn_msg e |})
  else if String.eqb path "/health" then
    ret {| status := 200; headers := [("Content-type", "text/plain")]; body := "OK" |}
  else
    ret {| status := 404; headers := []; body := EmptyString |}.

(** ** Vocabulary of the statements *)

(** The value a call returns, read off the run of the call itself. *)
Definition rpc_value (method : string) (params : value) (target_host : option string)
    : value :=
  match fst (make_bitcoin_rpc_call method params target_host no_effects) with
  | Ok v => v
  | Raise _ => VNone
  end.

(** The three results [get_pod_metrics] works from. *)
Definition chain_result (pod_host : string) : value :=
  rpc_value "getblockchaininfo" VNone (Some pod_host).
Definition peer_result (pod_host : string) : value :=
  rpc_value "getpeerinfo" VNone (Some pod_host).
Definition network_result (pod_host : string) : value :=
  rpc_value "getnetworkinfo" VNone (Some pod_host).

(** A result that passes [if v:] and then has no [get]. *)
Definition not_a_mapping (v : value) : bool :=
  truthy v && match py_get v EmptyString VNone with inl _ => true | inr _ => false end.

(** A result that passes [if v:] and then has no [len]. *)
Definition not_sized (v : value) : bool :=
  truthy v && match py_len v with inl _ => true | inr _ => false end.

(** What a field is read from when nothing raises. *)
Definition field_of (v : value) (key : string) : value :=
  if truthy v then
    match py_get v key (VInt 0) with inr x => x | inl _ => VInt 0 end
  else VInt 0.

Definition count_of (v : value) : value :=
  if truthy v then
    match py_len v with inr n => VInt n | inl _ => VInt 0 end
  else VInt 0.

(** The record of the [except] branch, and of a pod none of whose calls
    succeeded. *)
Definition zero_record (pod_host : string) : metrics :=
  {| pod := hd EmptyString (split_on "."%char pod_host);
     host := pod_host;
     blocks := VInt 0;
     peers := VInt 0;
     connections := VInt 0;
     difficulty := VInt 0;
     verification_progress := VInt 0;
     healthy := false |}.

(** The record of the [try] branch when nothing raises. *)
Definition plain_record (pod_host : string) (data peers network_data : value) : metrics :=
  {| pod := hd EmptyString (split_on "."%char pod_host);
     host := pod_host;
     blocks := field_of data "blocks";
     peers := count_of peers;
     connections := field_of network_data "connections";
     difficulty := field_of data "difficulty";
     verification_progress := field_of data "verificationprogress";
     healthy := is_not_None data |}.



(** *** The exposition format, as the specification words it *)

Definition family_names : list string :=
  ["bitcoin_blocks"; "bitcoin_peers"; "bitcoin_connections"; "bitcoin_difficulty";
   "bitcoin_verification_progress"; "bitcoin_pod_healthy"].

Definition help_line (name descr : string) : string :=
  "# HELP " +:+ name +:+ " " +:+ descr.

Definition type_line (name : string) : string :=
  "# TYPE " +:+ name +:+ " gauge".

(** [metric_name{label="value"} sample_value] *)
Definition sample_line (name label sample : string) : string :=
  name +:+ "{pod=" +:+ dq +:+ label +:+ dq +:+ "} " +:+ sample.

(** The six families of a record: name, help text, sample value. *)
Definition families (m : metrics) : list (string * string * string) :=
  [("bitcoin_blocks", "Current block height", py_str (blocks m));
   ("bitcoin_peers", "Number of connected peers", py_str (peers m));
   ("bitcoin_connections", "Number of network connections", py_str (connections m));
   ("bitcoin_difficulty", "Current network difficulty", py_str (difficulty m));
   ("bitcoin_verification_progress", "Blockchain verification progress (0-1)",
    py_str (verification_progress m));
   ("bitcoin_pod_healthy", "Bitcoin pod health status",
    if healthy m then "1" else "0")].

Definition family_lines (label : string) (f : string * string * string) : list string :=
  [help_line (fst (fst f)) (snd (fst f));
   type_line (fst (fst f));
   sample_line (fst (fst f)) label (snd f)].

Definition block_lines (m : metrics) : list string :=
  flat_map (family_lines (pod m)) (families m).

Definition unlines (ls : list string) : string :=
  fold_right (fun l rest => l +:+ nl +:+ rest) EmptyString ls.

(** The lines of a text, each without its line break. *)
Fixpoint lines_of (s : string) : list string :=
  match s with
  | EmptyString => []
  | String c s' =>
      if Ascii.eqb c "010"%char then EmptyString :: lines_of s'
      else match lines_of s' with
           | w :: ws => String c w :: ws
           | [] => [String c EmptyString]
           end
  end.

Definition is_type_marker (l : string) : bool :=
  existsb (fun name => String.eqb l (type_line name)) family_names.

Definition is_comment (l : string) : bool := starts_with "# " l.

(** A line that carries a sample of one of the six families. *)
Definition is_sample (l : string) : bool :=
  existsb (fun name => starts_with (name +:+ "{pod=" +:+ dq) l) family_names.

Definition line_free (s : string) : bool := negb (contains_char "010"%char s).

(** The texts a record puts into its block. *)
Definition texts_of (m : metrics) : list string :=
  pod m :: map snd (families m).

(** The record [get_pod_metrics] assembles from the three results: the
    [except] branch as soon as one of them raises. *)
Definition assemble (pod_host : string) (data peers network_data : value) : metrics :=
  if not_a_mapping data || not_sized peers || not_a_mapping network_data
  then zero_record pod_host
  else plain_record pod_host data peers network_data.

(** The record [get_pod_metrics] returns for a pod, read off its run. *)
Definition record_for (pod_host : string) : metrics :=
  match fst (get_pod_metrics pod_host no_effects) with
  | Ok r => r
  | Raise _ => zero_record pod_host
  end.

(** The name of the pod of ordinal [i]:
    [<service>-<i>.<service>.<namespace>.svc.cluster.local]. *)
Definition endpoint (i : nat) : string :=
  let service := getenv "BITCOIN_SERVICE_NAME" "bitcoin-stack" in
  let namespace := getenv "BITCOIN_NAMESPACE" "bitcoin" in
  service +:+ "-" +:+ str_of_nat i +:+ "." +:+ service +:+ "." +:+ namespace
    +:+ ".svc.cluster.local".

Definition resolves (h : string) : Prop := exists a, gethostbyname h = inr a.

Definition unknown_host (h : string) : Prop :=
  exists e, gethostbyname h = inl e /\ is_gaierror e = true.

(** What one call adds to the log of [urlopen]: its request with the timeout
    of 10 seconds, or nothing when the request could not be built. *)
Definition call_log (method : string) (params : value) (target_host : option string)
    : list (request * Z) :=
  match rpc_request_for method params target_host with
  | inr request => [(request, 10%Z)]
  | inl _ => []
  end.

(** The effects once some more calls of [urlopen] have been logged. *)
Definition logged (st : effects) (calls : list (request * Z)) : effects :=
  {| http_log := http_log st ++ calls; dns_log := dns_log st; stdout := stdout st |}.

(** ** The RPC client *)

(** The calls [get_pod_metrics] makes for a pod, in order: the second and
    the third only when what came before did not raise. *)
Definition pod_requests (pod_host : string) : list (request * Z) :=
  call_log "getblockchaininfo" VNone (Some pod_host) ++
  (if not_a_mapping (chain_result pod_host) then []
   else
     call_log "getpeerinfo" VNone (Some pod_host) ++
     (if not_sized (peer_result pod_host) then []
      else call_log "getnetworkinfo" VNone (Some pod_host))).

(** The lines discovery prints. *)
Definition discovered_line (h : string) : string := "Discovered Bitcoin pod: " +:+ h.

Definition none_from_line (h : string) : string :=
  "Warning: No Bitcoin pods found starting from " +:+ h.

Definition none_discovered_line : string :=
  "Warning: No Bitcoin pods discovered for service "
    +:+ getenv "BITCOIN_SERVICE_NAME" "bitcoin-stack"
    +:+ " in namespace " +:+ getenv "BITCOIN_NAMESPACE" "bitcoin".

(** The pods a scrape collects from, given what discovery found. *)
Definition pods_used (pods : list string) : list string :=
  match pods with
  | [] => [endpoint 0]
  | _ :: _ => pods
  end.

(** The section variables a goal does not mention are dropped before the
    propositional solvers run, so that no proof depends on more of the world
    than its statement. *)
Ltac tidy :=
  try clear pick; try clear finish; try clear response_head; try clear py_repr;
  try clear gethostbyname; try clear encode_message; try clear request_rejects;
  try clear b64encode;
  try clear json_dumps; try clear json_loads; try clear urlopen; try clear environ.

Ltac run_monad :=
  cbv [ret raise lift bind try_except try_except_if print urlopen_read resolve
       future_result];
  cbn [fst snd http_log dns_log stdout].

Lemma logged_nothing st : logged st [] = st.
Proof. destruct st. unfold logged. cbn. rewrite app_nil_r. reflexivity. Qed.

Lemma make_bitcoin_rpc_call_run method params target_host st :
  make_bitcoin_rpc_call method params target_host st =
  (Ok (rpc_value method params target_host),
   logged st (call_log method params target_host)).
Proof.
  unfold rpc_value, make_bitcoin_rpc_call, call_log, no_effects. run_monad.
  destruct (rpc_request_for method params target_host) as [e | req];
    [rewrite logged_nothing; reflexivity |].
  unfold logged. cbn [http_log dns_log stdout].
  destruct (urlopen req 10) as [e | b]; [reflexivity |].
  destruct (json_loads b) as [e | doc]; [reflexivity |].
  destruct (py_get doc "result" VNone) as [e | v]; reflexivity.
Qed.

(** C5, as the code has it: for every method, parameter list and target
    host the call never raises and touches neither the resolver log nor the
    output.  When the request of lines 21-47 can be built the call logs
    exactly one [urlopen], with that request and a timeout of 10; it returns
    [None] when the connection fails or times out and when the body does not
    decode; when the body decodes to a mapping it returns exactly the value
    under [result], and [None] when there is no such key or the document is
    not a mapping.  When building the request raises ([Request] rejects the
    URL, the credentials do not encode) the call logs no [urlopen] and
    returns [None].  So there is at most one attempt. *)
Theorem rpc_call_at_most_one_attempt_never_raises method params target_host st :
  exists v st',
    make_bitcoin_rpc_call method params target_host st = (Ok v, st') /\
    dns_log st' = dns_log st /\
    stdout st' = stdout st /\
    length (http_log st') <= length (http_log st) + 1 /\
    (forall req, rpc_request_for method params target_host = inr req ->
       http_log st' = http_log st ++ [(req, 10%Z)] /\
       (forall e, urlopen req 10 = inl e -> v = VNone) /\
       (forall b e, urlopen req 10 = inr b -> json_loads b = inl e -> v = VNone) /\
       (forall b d, urlopen req 10 = inr b -> json_loads b = inr (VDict d) ->
          v = match d !! "result" with Some x => x | None => VNone end) /\
       (forall b d, urlopen req 10 = inr b -> json_loads b = inr (VDict d) ->
          d !! "result" = None -> v = VNone) /\
       (forall b doc, urlopen req 10 = inr b -> json_loads b = inr doc ->
          (forall d, doc <> VDict d) -> v = VNone)) /\
    (forall e, rpc_request_for method params target_host = inl e ->
       http_log st' = http_log st /\ v = VNone).
Proof.
  exists (rpc_value method params target_host),
         (logged st (call_log method params target_host)).
  split; [apply make_bitcoin_rpc_call_run |].
  split; [reflexivity |]. split; [reflexivity |].
  unfold rpc_value, make_bitcoin_rpc_call, call_log, no_effects. run_monad.
  destruct (rpc_request_for method params target_host) as [e0 | req0].
  - split; [cbn [logged http_log]; rewrite app_nil_r; lia |].
    split; [intros req Hreq; discriminate |].
    intros e _. cbn [logged http_log]. rewrite app_nil_r. split; reflexivity.
  - split; [cbn [logged http_log]; rewrite length_app; cbn [length]; lia |].
    split; [| intros e He; discriminate].
    intros req Hreq. injection Hreq as <-.
    split; [reflexivity |].
    repeat split.
    + intros e ->. reflexivity.
    + intros b e -> ->. reflexivity.
    + intros b d -> ->. reflexivity.
    + intros b d -> -> Hd. cbn. rewrite Hd. reflexivity.
    + intros b doc -> -> Hdoc. destruct doc; try reflexivity.
      exfalso. exact (Hdoc _ eq_refl).
Qed.

(** ** The collector *)

Lemma split_on_nonempty sep s : split_on sep s <> [].
Proof.
  destruct s as [| c s]; cbn; [discriminate |].
  destruct (Ascii.eqb c sep); [discriminate |].
  destruct (split_on sep s); discriminate.
Qed.

Lemma first_label_run pod_host st :
  first_label pod_host st = (Ok (hd EmptyString (split_on "."%char pod_host)), st).
Proof.
  unfold first_label.
  destruct (split_on "."%char pod_host) eqn:E; [| reflexivity].
  exfalso. exact (split_on_nonempty _ _ E).
Qed.

Lemma bind_ok {A B} (c : M A) (k : A -> M B) st a st' :
  c st = (Ok a, st') -> bind c k st = k a st'.
Proof. unfold bind. intros ->. reflexivity. Qed.

Lemma bind_raise {A B} (c : M A) (k : A -> M B) st e st' :
  c st = (Raise e, st') -> bind c k st = (Raise e, st').
Proof. unfold bind. intros ->. reflexivity. Qed.

(** The three guarded reads of [get_pod_metrics], one at a time. *)
Lemma chain_phase_run data st :
  exists e,
    (if truthy data then
       blocks <- lift (py_get data "blocks" (VInt 0)) ;;
       difficulty <- lift (py_get data "difficulty" (VInt 0)) ;;
       verification_progress <- lift (py_get data "verificationprogress" (VInt 0)) ;;
       ret (blocks, difficulty, verification_progress)
     else ret (VInt 0, VInt 0, VInt 0)) st =
    if not_a_mapping data then (Raise e, st)
    else (Ok (field_of data "blocks", field_of data "difficulty",
              field_of data "verificationprogress"), st).
Proof.
  unfold not_a_mapping, field_of.
  exists (Exn AttributeError "object has no attribute 'get'").
  destruct (truthy data); [| reflexivity].
  destruct data; reflexivity.
Qed.

Lemma peer_phase_run peers st :
  exists e,
    (if truthy peers then lift (py_len peers) else ret 0%Z) st =
    if not_sized peers then (Raise e, st)
    else (Ok (match count_of peers with VInt n => n | _ => 0%Z end), st).
Proof.
  unfold not_sized, count_of.
  exists (Exn TypeError "object has no len()").
  destruct (truthy peers); [| reflexivity].
  destruct peers; reflexivity.
Qed.

Lemma count_of_int peers :
  VInt (match count_of peers with VInt n => n | _ => 0%Z end) = count_of peers.
Proof.
  unfold count_of. destruct (truthy peers); [| reflexivity].
  destruct (py_len peers); reflexivity.
Qed.

Lemma network_phase_run network_data st :
  exists e,
    (if truthy network_data
     then lift (py_get network_data "connections" (VInt 0))
     else ret (VInt 0)) st =
    if not_a_mapping network_data then (Raise e, st)
    else (Ok (field_of network_data "connections"), st).
Proof.
  unfold not_a_mapping, field_of.
  exists (Exn AttributeError "object has no attribute 'get'").
  destruct (truthy network_data); [| reflexivity].
  destruct network_data; reflexivity.
Qed.

Lemma get_pod_metrics_run pod_host st :
  exists st',
    get_pod_metrics pod_host st =
    (Ok (assemble pod_host (chain_result pod_host) (peer_result pod_host)
           (network_result pod_host)),
     st').
Proof.
  unfold assemble, get_pod_metrics, chain_result, peer_result, network_result, try_except.
  set (d := rpc_value "getblockchaininfo" VNone (Some pod_host)).
  set (p := rpc_value "getpeerinfo" VNone (Some pod_host)).
  set (n := rpc_value "getnetworkinfo" VNone (Some pod_host)).
  erewrite bind_ok by apply make_bitcoin_rpc_call_run. fold d.
  match goal with |- context [bind ?c _ ?s] =>
    destruct (chain_phase_run d s) as [e1 H1] end.
  destruct (not_a_mapping d).
  { erewrite bind_raise by exact H1. erewrite bind_ok by apply first_label_run.
    eexists. reflexivity. }
  erewrite bind_ok by exact H1.
  erewrite bind_ok by apply make_bitcoin_rpc_call_run. fold p.
  match goal with |- context [bind (if truthy p then _ else _) _ ?s] =>
    destruct (peer_phase_run p s) as [e2 H2] end.
  destruct (not_sized p).
  { erewrite bind_raise by exact H2. erewrite bind_ok by apply first_label_run.
    eexists. reflexivity. }
  erewrite bind_ok by exact H2.
  erewrite bind_ok by apply make_bitcoin_rpc_call_run. fold n.
  match goal with |- context [bind (if truthy n then _ else _) _ ?s] =>
    destruct (network_phase_run n s) as [e3 H3] end.
  destruct (not_a_mapping n).
  { erewrite bind_raise by exact H3. erewrite bind_ok by apply first_label_run.
    eexists. reflexivity. }
  erewrite bind_ok by exact H3.
  erewrite bind_ok by apply first_label_run.
  unfold ret, plain_record. cbn [fst snd orb]. rewrite count_of_int.
  eexists. reflexivity.
Qed.

Lemma assemble_chain_absent pod_host p n :
  let r := assemble pod_host VNone p n in
  blocks r = VInt 0 /\ difficulty r = VInt 0 /\ verification_progress r = VInt 0 /\
  healthy r = false.
Proof.
  unfold assemble. cbn [not_a_mapping truthy andb orb].
  destruct (not_sized p || not_a_mapping n); repeat split; reflexivity.
Qed.

Lemma assemble_peer_absent pod_host d n : peers (assemble pod_host d VNone n) = VInt 0.
Proof.
  unfold assemble. destruct (not_a_mapping d || not_sized VNone || not_a_mapping n);
    reflexivity.
Qed.

Lemma assemble_network_absent pod_host d p :
  connections (assemble pod_host d p VNone) = VInt 0.
Proof.
  unfold assemble. destruct (not_a_mapping d || not_sized p || not_a_mapping VNone);
    reflexivity.
Qed.

Lemma assemble_all_absent pod_host :
  let r := assemble pod_host VNone VNone VNone in
  blocks r = VInt 0 /\ peers r = VInt 0 /\ connections r = VInt 0 /\
  difficulty r = VInt 0 /\ verification_progress r = VInt 0 /\ healthy r = false.
Proof. repeat split; reflexivity. Qed.

(** C2: [get_pod_metrics] returns a record from every state and never
    raises.  When the three calls all fail the record is all zeros and
    unhealthy.  A failed call zeroes the fields read from it (and, for the
    blockchain call, clears the health flag); and as long as no result that
    is present is malformed, every field is read from its own call only, so
    the failure of one call leaves the fields of the other two alone. *)
Theorem collect_total_failures_isolated pod_host st :
  exists r st',
    get_pod_metrics pod_host st = (Ok r, st') /\
    (chain_result pod_host = VNone -> peer_result pod_host = VNone ->
     network_result pod_host = VNone ->
     blocks r = VInt 0 /\ peers r = VInt 0 /\ connections r = VInt 0 /\
     difficulty r = VInt 0 /\ verification_progress r = VInt 0 /\ healthy r = false) /\
    (chain_result pod_host = VNone ->
     blocks r = VInt 0 /\ difficulty r = VInt 0 /\ verification_progress r = VInt 0 /\
     healthy r = false) /\
    (peer_result pod_host = VNone -> peers r = VInt 0) /\
    (network_result pod_host = VNone -> connections r = VInt 0) /\
    (not_a_mapping (chain_result pod_host) = false ->
     not_sized (peer_result pod_host) = false ->
     not_a_mapping (network_result pod_host) = false ->
     blocks r = field_of (chain_result pod_host) "blocks" /\
     difficulty r = field_of (chain_result pod_host) "difficulty" /\
     verification_progress r = field_of (chain_result pod_host) "verificationprogress" /\
     healthy r = is_not_None (chain_result pod_host) /\
     peers r = count_of (peer_result pod_host) /\
     connections r = field_of (network_result pod_host) "connections").
Proof.
  destruct (get_pod_metrics_run pod_host st) as [st' Hrun].
  eexists. exists st'. split; [exact Hrun |].
  split; [intros -> -> ->; apply assemble_all_absent |].
  split; [intros ->; apply assemble_chain_absent |].
  split; [intros ->; apply assemble_peer_absent |].
  split; [intros ->; apply assemble_network_absent |].
  intros Hd Hp Hn. unfold assemble. rewrite Hd, Hp, Hn. cbn. tidy; tauto.
Qed.

Lemma not_a_mapping_falsy v : truthy v = false -> not_a_mapping v = false.
Proof. unfold not_a_mapping. intros ->. reflexivity. Qed.

Lemma is_not_None_true v : is_not_None v = true <-> v <> VNone.
Proof. destruct v; cbn; split; congruence. Qed.






Lemma present_falsy_run pod_host st :
  chain_result pod_host <> VNone ->
  truthy (chain_result pod_host) = false ->
  not_sized (peer_result pod_host) = false ->
  not_a_mapping (network_result pod_host) = false ->
  exists r st',
    get_pod_metrics pod_host st = (Ok r, st') /\
    healthy r = true /\ blocks r = VInt 0 /\ difficulty r = VInt 0 /\
    verification_progress r = VInt 0.
Proof.
  intros Hd Ht Hp Hn.
  destruct (get_pod_metrics_run pod_host st) as [st' Hrun].
  eexists. exists st'. split; [exact Hrun |].
  unfold assemble. rewrite (not_a_mapping_falsy _ Ht), Hp, Hn.
  cbn [orb plain_record healthy blocks difficulty verification_progress].
  unfold field_of. rewrite Ht.
  apply is_not_None_true in Hd. tidy; tauto.
Qed.

(** ** Discovery *)

Lemma discover_loop_cons service_name base_host i range pods st :
  discover_loop service_name base_host (i :: range) pods st =
  let pod_host := pod_host_of service_name base_host i in
  match gethostbyname pod_host with
  | inr _ =>
      discover_loop service_name base_host range (pods ++ [pod_host])
        {| http_log := http_log st; dns_log := dns_log st ++ [pod_host];
           stdout := stdout st ++ ["Discovered Bitcoin pod: " +:+ pod_host] |}
  | inl e =>
      if is_gaierror e then
        (Ok pods,
         {| http_log := http_log st; dns_log := dns_log st ++ [pod_host];
            stdout := if (i =? 0)%nat
                      then stdout st ++ ["Warning: No Bitcoin pods found starting from "
                                         +:+ pod_host]
                      else stdout st |})
      else
        (Raise e,
         {| http_log := http_log st; dns_log := dns_log st ++ [pod_host];
            stdout := stdout st |})
  end.
Proof.
  cbn [discover_loop]. run_monad.
  destruct (gethostbyname (pod_host_of service_name base_host i)) as [e | a];
    [| reflexivity].
  destruct (is_gaierror e); [| reflexivity].
  destruct (i =? 0)%nat; reflexivity.
Qed.

Lemma discover_loop_stops service_name base_host k :
  forall start n pods st,
    k < n ->
    (forall i, i < k -> resolves (pod_host_of service_name base_host (start + i))) ->
    unknown_host (pod_host_of service_name base_host (start + k)) ->
    exists st',
      discover_loop service_name base_host (seq start n) pods st =
      (Ok (pods ++ map (pod_host_of service_name base_host) (seq start k)), st') /\
      dns_log st' = dns_log st ++ map (pod_host_of service_name base_host) (seq start (S k)) /\
      http_log st' = http_log st.
Proof.
  induction k as [| k IH]; intros start n pods st Hn Hres Hstop.
  - destruct n as [| n]; [lia |].
    cbn [seq]. rewrite discover_loop_cons. cbv zeta.
    destruct Hstop as (e & He & Hg). rewrite Nat.add_0_r in He. rewrite He, Hg.
    eexists. split; [cbn [seq map]; rewrite app_nil_r; reflexivity |].
    split; reflexivity.
  - destruct n as [| n]; [lia |].
    cbn [seq]. rewrite discover_loop_cons. cbv zeta.
    destruct (Hres 0) as [a Ha]; [lia |]. rewrite Nat.add_0_r in Ha. rewrite Ha.
    edestruct (IH (S start) n) as (st' & Hrun & Hdns & Hhttp).
    + lia.
    + intros i Hi. replace (S start + i) with (start + S i) by lia. apply Hres. lia.
    + replace (S start + k) with (start + S k) by lia. exact Hstop.
    + exists st'. split; [rewrite Hrun; cbn [seq map]; rewrite <- app_assoc; reflexivity |].
      split; [rewrite Hdns | rewrite Hhttp]; cbn [dns_log http_log seq map];
        [rewrite <- app_assoc |]; reflexivity.
Qed.

Lemma discover_loop_all service_name base_host n :
  forall start pods st,
    (forall i, i < n -> resolves (pod_host_of service_name base_host (start + i))) ->
    exists st',
      discover_loop service_name base_host (seq start n) pods st =
      (Ok (pods ++ map (pod_host_of service_name base_host) (seq start n)), st') /\
      dns_log st' = dns_log st ++ map (pod_host_of service_name base_host) (seq start n) /\
      http_log st' = http_log st.
Proof.
  induction n as [| n IH]; intros start pods st Hres.
  - exists st. cbn. rewrite !app_nil_r. auto.
  - cbn [seq]. rewrite discover_loop_cons. cbv zeta.
    destruct (Hres 0) as [a Ha]; [lia |]. rewrite Nat.add_0_r in Ha. rewrite Ha.
    edestruct (IH (S start)) as (st' & Hrun & Hdns & Hhttp).
    + intros i Hi. replace (S start + i) with (start + S i) by lia. apply Hres. lia.
    + exists st'. split; [rewrite Hrun; cbn [seq map]; rewrite <- app_assoc; reflexivity |].
      split; [rewrite Hdns | rewrite Hhttp]; cbn [dns_log http_log seq map];
        [rewrite <- app_assoc |]; reflexivity.
Qed.

Lemma discover_loop_bound service_name base_host range :
  forall pods st found st',
    discover_loop service_name base_host range pods st = (Ok found, st') ->
    length found <= length pods + length range.
Proof.
  induction range as [| i range IH]; intros pods st found st' Hrun.
  - cbn in Hrun. injection Hrun as <- _. lia.
  - rewrite discover_loop_cons in Hrun. cbv zeta in Hrun.
    destruct (gethostbyname _) as [e | a].
    + destruct (is_gaierror e); [| discriminate].
      injection Hrun as <- _. cbn [length]. lia.
    + apply IH in Hrun. rewrite length_app in Hrun. cbn [length] in *. lia.
Qed.

Lemma discover_run_of_loop found st st1 :
  discover_loop (getenv "BITCOIN_SERVICE_NAME" "bitcoin-stack")
    (getenv "BITCOIN_SERVICE_NAME" "bitcoin-stack" +:+ "." +:+
     getenv "BITCOIN_NAMESPACE" "bitcoin" +:+ ".svc.cluster.local")
    (seq 0 10) [] st = (Ok found, st1) ->
  exists st',
    discover_bitcoin_pods st = (Ok found, st') /\
    dns_log st' = dns_log st1 /\ http_log st' = http_log st1.
Proof.
  intros Hloop. unfold discover_bitcoin_pods. cbv zeta.
  erewrite bind_ok by exact Hloop.
  destruct found; run_monad; eexists; repeat split; reflexivity.
Qed.

Lemma discover_at_most_ten st found st' :
  discover_bitcoin_pods st = (Ok found, st') -> length found <= 10.
Proof.
  unfold discover_bitcoin_pods. cbv zeta. unfold bind at 1.
  destruct (discover_loop _ _ _ _ st) as [[pods | e] st1] eqn:Hloop; [| discriminate].
  apply discover_loop_bound in Hloop. cbn [length] in Hloop. rewrite length_seq in Hloop.
  destruct pods; run_monad; intros H; injection H as <- _; exact Hloop.
Qed.

Lemma append_cancel_l s a b : s +:+ a = s +:+ b -> a = b.
Proof.
  induction s as [| c s IH]; cbn; [(tidy; tauto) |].
  intros H. injection H as H. auto.
Qed.

Lemma endpoint_ten_fresh i : i < 10 -> endpoint 10 <> endpoint i.
Proof.
  intros Hi H. unfold endpoint in H. cbv zeta in H.
  apply append_cancel_l in H.
  do 10 (destruct i as [| i]; [discriminate H |]). lia.
Qed.

(** C4, as the code has it: when the pods of ordinals 0 to k-1 resolve and
    the lookup of ordinal k < 10 raises [socket.gaierror], the one class
    line 79 catches, discovery returns the k names
    [<service>-i.<service>.<namespace>.svc.cluster.local], i = 0..k-1, in
    ascending order, having probed the ordinals 0 to k and nothing after:
    the scan stops at the first unknown name.  When the ten ordinals 0 to 9
    all resolve it returns the ten names and has probed exactly those ten;
    the name of ordinal 10 is not among them. *)
Theorem discover_contiguous_and_capped st :
  (forall k, k < 10 ->
     (forall i, i < k -> resolves (endpoint i)) ->
     unknown_host (endpoint k) ->
     exists st',
       discover_bitcoin_pods st = (Ok (map endpoint (seq 0 k)), st') /\
       length (map endpoint (seq 0 k)) = k /\
       dns_log st' = dns_log st ++ map endpoint (seq 0 (S k))) /\
  ((forall i, i < 10 -> resolves (endpoint i)) ->
   exists st',
     discover_bitcoin_pods st = (Ok (map endpoint (seq 0 10)), st') /\
     length (map endpoint (seq 0 10)) = 10 /\
     dns_log st' = dns_log st ++ map endpoint (seq 0 10) /\
     ~ In (endpoint 10) (map endpoint (seq 0 10))).
Proof.
  split.
  - intros k Hk Hres Hstop.
    edestruct (discover_loop_stops (getenv "BITCOIN_SERVICE_NAME" "bitcoin-stack")
                 (getenv "BITCOIN_SERVICE_NAME" "bitcoin-stack" +:+ "." +:+
                  getenv "BITCOIN_NAMESPACE" "bitcoin" +:+ ".svc.cluster.local")
                 k 0 10 [] st Hk Hres Hstop) as (st1 & Hrun & Hdns & _).
    destruct (discover_run_of_loop _ _ _ Hrun) as (st' & Hd & Hlog & _).
    exists st'. split; [exact Hd |].
    split; [rewrite length_map, length_seq; reflexivity |].
    rewrite Hlog. exact Hdns.
  - intros Hres.
    edestruct (discover_loop_all (getenv "BITCOIN_SERVICE_NAME" "bitcoin-stack")
                 (getenv "BITCOIN_SERVICE_NAME" "bitcoin-stack" +:+ "." +:+
                  getenv "BITCOIN_NAMESPACE" "bitcoin" +:+ ".svc.cluster.local")
                 10 0 [] st Hres) as (st1 & Hrun & Hdns & _).
    destruct (discover_run_of_loop _ _ _ Hrun) as (st' & Hd & Hlog & _).
    exists st'. split; [exact Hd |].
    split; [reflexivity |].
    split; [rewrite Hlog; exact Hdns |].
    rewrite in_map_iff. intros (i & Hi & Hin). apply in_seq in Hin.
    apply (endpoint_ten_fresh i); [lia | symmetry; exact Hi].
Qed.

(** ** The fan-out *)

Lemma get_pod_metrics_value pod_host st :
  exists st', get_pod_metrics pod_host st = (Ok (record_for pod_host), st').
Proof.
  destruct (get_pod_metrics_run pod_host st) as [st' Hrun].
  destruct (get_pod_metrics_run pod_host no_effects) as [st0 Hrun0].
  exists st'. unfold record_for. rewrite Hrun0. exact Hrun.
Qed.

Lemma host_record_for pod_host : host (record_for pod_host) = pod_host.
Proof.
  destruct (get_pod_metrics_run pod_host no_effects) as [st0 Hrun0].
  unfold record_for. rewrite Hrun0. cbn [fst]. unfold assemble.
  destruct (not_a_mapping _ || not_sized _ || not_a_mapping _); reflexivity.
Qed.

Lemma submit_value pod_host :
  fst (submit get_pod_metrics pod_host) = Ok (record_for pod_host).
Proof.
  destruct (get_pod_metrics_value pod_host no_effects) as [st' H].
  unfold submit. rewrite H. reflexivity.
Qed.

Lemma submit_all_run pods st :
  exists st',
    submit_all pick get_pod_metrics pods st =
    (Ok (map (fun h => Ok (record_for h)) pods), st').
Proof.
  unfold submit_all. eexists. f_equal. f_equal.
  rewrite map_map. apply map_ext. intros h. apply submit_value.
Qed.

Lemma insert_by_time_perm {A} t (x : A) l :
  Permutation (insert_by_time t x l) ((t, x) :: l).
Proof.
  induction l as [| [t' y] l IH]; cbn; [reflexivity |].
  destruct (t <=? t')%nat; [reflexivity |].
  rewrite IH. apply perm_swap.
Qed.

Lemma sort_by_time_perm {A} (l : list (nat * A)) : Permutation (sort_by_time l) l.
Proof.
  induction l as [| [t x] l IH]; cbn; [reflexivity |].
  rewrite insert_by_time_perm. apply perm_skip. exact IH.
Qed.

Lemma snd_combine_same_length {A B} (ts : list A) (l : list B) :
  length ts = length l -> map snd (combine ts l) = l.
Proof.
  revert l. induction ts as [| t ts IH]; intros [| x l] H; try discriminate; cbn;
    [reflexivity |].
  f_equal. apply IH. cbn in H. lia.
Qed.

Lemma as_completed_perm {A} (l : list A) : Permutation (as_completed finish l) l.
Proof.
  unfold as_completed.
  rewrite sort_by_time_perm.
  rewrite snd_combine_same_length; [reflexivity |].
  rewrite length_map, length_seq. reflexivity.
Qed.

Lemma gather_values ms :
  forall acc st, gather (map Ok ms) acc st = (Ok (acc ++ ms), st).
Proof.
  induction ms as [| m ms IH]; intros acc st; cbn [gather map].
  - rewrite app_nil_r. reflexivity.
  - run_monad. rewrite IH, <- app_assoc. reflexivity.
Qed.

Lemma collect_all_run pods st :
  pods <> [] ->
  exists ms st',
    collect_all pods st = (Ok ms, st') /\
    Permutation ms (map record_for pods).
Proof.
  intros Hne. unfold collect_all, ThreadPoolExecutor.
  destruct pods as [| h pods]; [congruence |].
  cbn [length Nat.eqb]. run_monad.
  destruct (submit_all_run (h :: pods) st) as [st1 H1]. rewrite H1.
  pose proof (as_completed_perm (map (fun h => Ok (record_for h)) (h :: pods))) as HP.
  rewrite <- (map_map record_for Ok) in HP.
  apply Permutation_map_inv in HP as (ms & Hms & Hperm).
  rewrite <- (map_map record_for Ok), Hms, gather_values.
  exists ms, st1. split; [reflexivity | symmetry; exact Hperm].
Qed.

(** The pods the records are collected from. *)
Lemma with_fallback_run pods st :
  exists st',
    with_fallback pods st =
    (Ok (match pods with [] => [fallback_host] | _ :: _ => pods end), st').
Proof. destruct pods; run_monad; eexists; reflexivity. Qed.

Lemma fallback_is_ordinal_zero : fallback_host = endpoint 0.
Proof. reflexivity. Qed.

(** C1: whenever discovery returns a list of N pods, N is at most 10 and
    the scrape collects exactly max(N,1) records, one for each pod whatever
    its RPC calls did; when discovery returns no pod the records are collected
    from the single pod [<service>-0.<service>.<namespace>.svc.cluster.local],
    so there is always at least one record. *)
Theorem scrape_collects_one_record_per_endpoint st pods st1 :
  discover_bitcoin_pods st = (Ok pods, st1) ->
  exists ms st2,
    collect_metrics st = (Ok ms, st2) /\
    length pods <= 10 /\
    length ms = Nat.max (length pods) 1 /\
    1 <= length ms /\
    Permutation (map host ms) (match pods with [] => [endpoint 0] | _ :: _ => pods end) /\
    Permutation ms (map record_for (match pods with [] => [endpoint 0] | _ :: _ => pods end)) /\
    (pods = [] -> ms = [record_for (endpoint 0)]).
Proof.
  intros Hdisc.
  pose proof (discover_at_most_ten _ _ _ Hdisc) as Hten.
  unfold collect_metrics.
  erewrite bind_ok by exact Hdisc.
  destruct (with_fallback_run pods st1) as [st2 Hfb].
  erewrite bind_ok by exact Hfb.
  rewrite fallback_is_ordinal_zero.
  set (used := match pods with [] => [endpoint 0] | _ :: _ => pods end).
  assert (Hused : used <> []) by (subst used; destruct pods; discriminate).
  assert (Hlen : length used = Nat.max (length pods) 1)
    by (subst used; destruct pods; cbn [length]; lia).
  unfold bind at 1, print.
  match goal with |- context [collect_all used ?s] =>
    destruct (collect_all_run used s Hused) as (ms & st3 & Hrun & Hperm) end.
  exists ms, st3. split; [exact Hrun |].
  pose proof (Permutation_length Hperm) as HL. rewrite length_map in HL.
  split; [exact Hten |]. split; [lia |]. split; [lia |].
  split.
  - rewrite Hperm, map_map. erewrite map_ext; [rewrite map_id; reflexivity |].
    intros h. apply host_record_for.
  - split; [exact Hperm |].
    intros ->. subst used. cbn [map] in Hperm.
    apply Permutation_sym, Permutation_length_1_inv in Hperm. exact Hperm.
Qed.

(** ** The renderer *)

Lemma append_cons x a b : String x a +:+ b = String x (a +:+ b).
Proof. reflexivity. Qed.

Lemma append_assoc a b c : (a +:+ b) +:+ c = a +:+ (b +:+ c).
Proof.
  induction a as [| x a IH]; [reflexivity |].
  rewrite !append_cons, IH. reflexivity.
Qed.

Lemma append_nil_r a : a +:+ EmptyString = a.
Proof.
  induction a as [| x a IH]; [reflexivity |].
  rewrite append_cons, IH. reflexivity.
Qed.

Lemma render_from metrics_output all_metrics :
  fold_left (fun out m => out +:+ render_block m) all_metrics metrics_output =
  metrics_output +:+ render all_metrics.
Proof.
  unfold render. revert metrics_output.
  induction all_metrics as [| m ms IH]; intros out; cbn [fold_left].
  - rewrite append_nil_r. reflexivity.
  - rewrite IH, (IH (EmptyString +:+ render_block m)), append_assoc. reflexivity.
Qed.

Lemma render_cons m ms : render (m :: ms) = render_block m +:+ render ms.
Proof. unfold render at 1. cbn [fold_left]. apply render_from. Qed.

Lemma render_app rs ss : render (rs ++ ss) = render rs +:+ render ss.
Proof.
  induction rs as [| r rs IH]; [reflexivity |].
  cbn [app]. rewrite !render_cons, IH, append_assoc. reflexivity.
Qed.

(** C10: rendering distributes over the concatenation of record lists, each
    record contributing the block that depends on it alone; the empty list
    renders to the empty text, and a scrape that had no record would answer
    200 with an empty body. *)
Theorem render_is_concatenation_homomorphism :
  (forall rs ss, render (rs ++ ss) = render rs +:+ render ss) /\
  (forall r, render [r] = render_block r) /\
  (forall rs, render rs = fold_right (fun r rest => render_block r +:+ rest) EmptyString rs) /\
  render [] = EmptyString /\
  metrics_response [] =
    {| status := 200; headers := [("Content-type", "text/plain")]; body := EmptyString |}.
Proof.
  split; [exact render_app |].
  split; [intros r; rewrite render_cons; apply append_nil_r |].
  split; [| split; reflexivity].
  induction rs as [| r rs IH]; [reflexivity |].
  rewrite render_cons, IH. reflexivity.
Qed.

Lemma render_block_lines m : render_block m = unlines (block_lines m).
Proof.
  unfold render_block, block_lines, families, family_lines, unlines, sample_line,
    help_line, type_line.
  cbn [flat_map fold_right fst snd app py_str str_of_Z].
  rewrite !append_assoc.
  destruct (healthy m); reflexivity.
Qed.

Lemma unlines_app ls ks : unlines (ls ++ ks) = unlines ls +:+ unlines ks.
Proof.
  induction ls as [| l ls IH]; [reflexivity |].
  cbn [app unlines fold_right]. fold (unlines (ls ++ ks)). fold (unlines ls).
  rewrite IH, !append_assoc. reflexivity.
Qed.

Lemma render_unlines rs : render rs = unlines (flat_map block_lines rs).
Proof.
  induction rs as [| r rs IH]; [reflexivity |].
  cbn [flat_map]. rewrite render_cons, unlines_app, IH, render_block_lines. reflexivity.
Qed.

Lemma render_nonempty rs : rs <> [] -> render rs <> EmptyString.
Proof.
  destruct rs as [| r rs]; [congruence |]. intros _.
  rewrite render_cons. unfold render_block. rewrite append_cons. discriminate.
Qed.

Lemma ends_with_nl_app a b : ends_with_nl b = true -> ends_with_nl (a +:+ b) = true.
Proof.
  intros Hb. induction a as [| x a IH]; [exact Hb |].
  rewrite append_cons. cbn [ends_with_nl].
  destruct (a +:+ b); [discriminate IH | exact IH].
Qed.

Lemma unlines_ends_with_nl ls : ls <> [] -> ends_with_nl (unlines ls) = true.
Proof.
  induction ls as [| l ls IH]; [congruence |]. intros _.
  cbn [unlines fold_right]. fold (unlines ls).
  apply ends_with_nl_app.
  destruct ls as [| k ls]; [reflexivity |].
  apply (ends_with_nl_app nl). apply IH. discriminate.
Qed.

Lemma block_lines_nonempty m : block_lines m <> [].
Proof. discriminate. Qed.

Lemma contains_char_app c a b :
  contains_char c (a +:+ b) = contains_char c a || contains_char c b.
Proof.
  induction a as [| x a IH]; [reflexivity |].
  rewrite append_cons. cbn [contains_char]. rewrite IH, orb_assoc. reflexivity.
Qed.

Lemma line_free_app a b : line_free (a +:+ b) = line_free a && line_free b.
Proof. unfold line_free. rewrite contains_char_app, negb_orb. reflexivity. Qed.

Lemma lines_of_line l rest :
  line_free l = true -> lines_of (l +:+ nl +:+ rest) = l :: lines_of rest.
Proof.
  induction l as [| x l IH]; intros Hl; [reflexivity |].
  unfold line_free in Hl. cbn [contains_char] in Hl.
  apply negb_true_iff, orb_false_iff in Hl as [Hx Hl].
  rewrite append_cons. cbn [lines_of]. rewrite Hx, IH; [reflexivity |].
  unfold line_free. rewrite Hl. reflexivity.
Qed.

Lemma lines_of_unlines ls :
  Forall (fun l => line_free l = true) ls -> lines_of (unlines ls) = ls.
Proof.
  induction 1 as [| l ls Hl _ IH]; [reflexivity |].
  cbn [unlines fold_right]. fold (unlines ls).
  rewrite lines_of_line, IH; [reflexivity | exact Hl].
Qed.

Lemma u8run_app q a b : u8run q (a +:+ b) = u8run (u8run q a) b.
Proof.
  revert q. induction a as [| x a IH]; intros q; [reflexivity |].
  rewrite append_cons. cbn [u8run]. apply IH.
Qed.

Lemma utf8_valid_app a b :
  utf8_valid a = true -> utf8_valid b = true -> utf8_valid (a +:+ b) = true.
Proof.
  unfold utf8_valid. rewrite u8run_app.
  destruct (u8run U0 a); try discriminate. tidy; tauto.
Qed.

Lemma utf8_valid_unlines ls :
  Forall (fun l => utf8_valid l = true) ls -> utf8_valid (unlines ls) = true.
Proof.
  induction 1 as [| l ls Hl _ IH]; [reflexivity |].
  cbn [unlines fold_right]. fold (unlines ls).
  apply utf8_valid_app; [exact Hl |].
  apply (utf8_valid_app nl); [reflexivity | exact IH].
Qed.

(** A sample line has every property that its fixed parts have, that the
    label and the value have, and that concatenation preserves. *)
Lemma sample_line_closed (P : string -> bool) name label v :
  (forall a b, P a = true -> P b = true -> P (a +:+ b) = true) ->
  P (name +:+ "{pod=" +:+ dq) = true -> P (dq +:+ "} ") = true ->
  P label = true -> P v = true ->
  P (sample_line name label v) = true.
Proof.
  intros Happ Hn Hq Hl Hv. unfold sample_line.
  replace (name +:+ "{pod=" +:+ dq +:+ label +:+ dq +:+ "} " +:+ v)
    with ((name +:+ "{pod=" +:+ dq) +:+ label +:+ (dq +:+ "} ") +:+ v)
    by (rewrite !append_assoc; reflexivity).
  auto.
Qed.

Ltac block_closed Happ :=
  let Htexts := fresh "Htexts" in
  intros Htexts;
  unfold texts_of, families in Htexts; cbn [map snd] in Htexts;
  repeat match goal with
         | H : Forall _ (_ :: _) |- _ =>
             let Hx := fresh "Hx" in apply Forall_cons_1 in H as [Hx H]
         end;
  unfold block_lines, families, family_lines; cbn [flat_map app fst snd];
  repeat (apply Forall_cons; split); try apply Forall_nil;
  try reflexivity;
  (apply sample_line_closed; [exact Happ | reflexivity | reflexivity | assumption
                             | assumption]).

Lemma line_free_app_true a b :
  line_free a = true -> line_free b = true -> line_free (a +:+ b) = true.
Proof. intros Ha Hb. rewrite line_free_app, Ha, Hb. reflexivity. Qed.

Lemma block_lines_line_free m :
  Forall (fun l => line_free l = true) (texts_of m) ->
  Forall (fun l => line_free l = true) (block_lines m).
Proof. block_closed line_free_app_true. Qed.

Lemma block_lines_utf8 m :
  Forall (fun l => utf8_valid l = true) (texts_of m) ->
  Forall (fun l => utf8_valid l = true) (block_lines m).
Proof. block_closed utf8_valid_app. Qed.

Lemma block_type_markers m :
  filter is_type_marker (block_lines m) = map type_line family_names.
Proof. reflexivity. Qed.

Lemma block_samples m :
  filter is_sample (block_lines m) =
  map (fun f => sample_line (fst (fst f)) (pod m) (snd f)) (families m).
Proof. reflexivity. Qed.

Lemma block_comment_or_sample m :
  forallb (fun l => is_comment l || is_sample l) (block_lines m) = true.
Proof. reflexivity. Qed.

Lemma filter_blocks_length (f : string -> bool) rs :
  (forall m, length (filter f (block_lines m)) = 6) ->
  length (filter f (flat_map block_lines rs)) = 6 * length rs.
Proof.
  intros Hf. induction rs as [| r rs IH]; [reflexivity |].
  cbn [flat_map length]. rewrite filter_app, length_app, Hf, IH. lia.
Qed.

Lemma blocks_length rs : length (flat_map block_lines rs) = 18 * length rs.
Proof.
  induction rs as [| r rs IH]; [reflexivity |].
  cbn [flat_map length]. rewrite length_app, IH.
  change (length (block_lines r)) with 18. lia.
Qed.

Lemma blocks_comment_or_sample rs :
  forallb (fun l => is_comment l || is_sample l) (flat_map block_lines rs) = true.
Proof.
  induction rs as [| r rs IH]; [reflexivity |].
  cbn [flat_map]. rewrite forallb_app, block_comment_or_sample, IH. reflexivity.
Qed.

Lemma Forall_flat_map_blocks (P : string -> Prop) rs :
  Forall (fun m => Forall P (block_lines m)) rs ->
  Forall P (flat_map block_lines rs).
Proof.
  induction 1 as [| r rs Hr _ IH]; [constructor |].
  cbn [flat_map]. apply Forall_app. split; assumption.
Qed.

(** C6, as the code has it: for a non-empty list of records the rendered
    text is not empty, ends with a line break, and is made of one block of
    18 lines per record: for each of the six families a HELP line, the line
    [# TYPE <family> gauge] and the sample line [<family>{pod="<name>"} <value>],
    the health sample being 1 for a healthy record and 0 otherwise.  The
    renderer copies the pod name and the values as they are: when none of them
    contains a line break the lines of the text are exactly those lines, six
    type markers and six samples per record, every line a comment or a
    sample; and when they are valid UTF-8 so is the text. *)
Theorem render_blocks_well_formed rs :
  rs <> [] ->
  render rs <> EmptyString /\
  ends_with_nl (render rs) = true /\
  render rs = unlines (flat_map block_lines rs) /\
  (forall m,
     map (fun f => fst (fst f)) (families m) = family_names /\
     length (block_lines m) = 18 /\
     filter is_type_marker (block_lines m) = map type_line family_names /\
     filter is_sample (block_lines m) =
       map (fun f => sample_line (fst (fst f)) (pod m) (snd f)) (families m) /\
     List.last (block_lines m) EmptyString =
       sample_line "bitcoin_pod_healthy" (pod m) (if healthy m then "1" else "0")) /\
  (Forall (fun m => Forall (fun t => line_free t = true) (texts_of m)) rs ->
   lines_of (render rs) = flat_map block_lines rs /\
   length (lines_of (render rs)) = 18 * length rs /\
   length (filter is_type_marker (lines_of (render rs))) = 6 * length rs /\
   length (filter is_sample (lines_of (render rs))) = 6 * length rs /\
   forallb (fun l => is_comment l || is_sample l) (lines_of (render rs)) = true) /\
  (Forall (fun m => Forall (fun t => utf8_valid t = true) (texts_of m)) rs ->
   utf8_valid (render rs) = true).
Proof.
  intros Hne.
  split; [apply render_nonempty; exact Hne |].
  split.
  { rewrite render_unlines. apply unlines_ends_with_nl.
    destruct rs as [| r rs]; [congruence |]. discriminate. }
  split; [apply render_unlines |].
  split; [intros m; repeat split; reflexivity |].
  split.
  - intros Hfree.
    assert (Hlines : lines_of (render rs) = flat_map block_lines rs).
    { rewrite render_unlines. apply lines_of_unlines, Forall_flat_map_blocks.
      eapply Forall_impl; [exact Hfree | apply block_lines_line_free]. }
    rewrite Hlines.
    split; [reflexivity |].
    split; [apply blocks_length |].
    split; [apply filter_blocks_length; reflexivity |].
    split; [apply filter_blocks_length; reflexivity | apply blocks_comment_or_sample].
  - intros Hutf. rewrite render_unlines.
    apply utf8_valid_unlines, Forall_flat_map_blocks.
    eapply Forall_impl; [exact Hutf | apply block_lines_utf8].
Qed.

(** ** The handler *)

(** C8: a GET whose path is neither [/metrics] nor [/health] is answered
    404 with no header and an empty body, and [/health] is answered 200,
    [text/plain], [OK]; both leave the logs as they were (no DNS probe, no
    RPC attempt, nothing printed), whatever the network and the resolver
    would have answered. *)
Theorem unknown_path_404_and_health_ok path st :
  (path <> "/metrics" -> path <> "/health" ->
   do_GET path st =
   (Ok {| status := 404; headers := []; body := EmptyString |}, st)) /\
  do_GET "/health" st =
  (Ok {| status := 200; headers := [("Content-type", "text/plain")]; body := "OK" |}, st).
Proof.
  split; [| reflexivity].
  intros Hm Hh. unfold do_GET.
  apply String.eqb_neq in Hm, Hh. rewrite Hm, Hh. reflexivity.
Qed.

(** ** Discovery, in full *)

(** What one run of the loop does, whatever the resolver answers: it stops
    at the first name that does not resolve, returning what it found when
    the resolver raised [gaierror] and raising what the resolver raised
    otherwise. *)
Lemma discover_loop_inv service_name base_host n :
  forall start pods st,
    (exists k st',
       k <= n /\
       discover_loop service_name base_host (seq start n) pods st =
         (Ok (pods ++ map (pod_host_of service_name base_host) (seq start k)), st') /\
       (forall i, i < k -> resolves (pod_host_of service_name base_host (start + i))) /\
       (k < n -> unknown_host (pod_host_of service_name base_host (start + k))) /\
       dns_log st' =
         dns_log st ++ map (pod_host_of service_name base_host)
                         (seq start (Nat.min (S k) n)) /\
       http_log st' = http_log st /\
       stdout st' =
         stdout st
         ++ map discovered_line (map (pod_host_of service_name base_host) (seq start k))
         ++ (if (k <? n)%nat && (start + k =? 0)%nat
             then [none_from_line (pod_host_of service_name base_host (start + k))]
             else [])) \/
    (exists k e st',
       k < n /\
       discover_loop service_name base_host (seq start n) pods st = (Raise e, st') /\
       (forall i, i < k -> resolves (pod_host_of service_name base_host (start + i))) /\
       gethostbyname (pod_host_of service_name base_host (start + k)) = inl e /\
       is_gaierror e = false /\
       dns_log st' =
         dns_log st ++ map (pod_host_of service_name base_host) (seq start (S k)) /\
       http_log st' = http_log st).
Proof.
  induction n as [| n IH]; intros start pods st.
  - left. exists 0, st. cbn. rewrite !app_nil_r.
    repeat split; try reflexivity; intros; lia.
  - cbn [seq]. rewrite discover_loop_cons. cbv zeta.
    destruct (gethostbyname (pod_host_of service_name base_host start)) as [e | a] eqn:Hdns.
    + destruct (is_gaierror e) eqn:Hg.
      * left. exists 0. eexists. split; [lia |]. split; [cbn; rewrite app_nil_r; reflexivity |].
        split; [intros i Hi; lia |].
        split; [intros _; exists e; rewrite Nat.add_0_r; split; assumption |].
        cbn [dns_log http_log stdout seq map Nat.min app Nat.ltb Nat.leb andb].
        rewrite Nat.add_0_r.
        repeat split. destruct (start =? 0)%nat; [reflexivity | rewrite app_nil_r; reflexivity].
      * right. exists 0, e. eexists. split; [lia |]. split; [reflexivity |].
        split; [intros i Hi; lia |]. rewrite Nat.add_0_r.
        repeat split; assumption.
    + match goal with |- context [discover_loop _ _ _ ?ps ?s] =>
        destruct (IH (S start) ps s) as
          [(k & st' & Hk & Hrun & Hres & Hstop & Hd & Hh & Ho)
          | (k & e & st' & Hk & Hrun & Hres & He & Hg & Hd & Hh)] end.
      * left. exists (S k), st'. split; [lia |].
        split; [rewrite Hrun; cbn [seq map]; rewrite <- app_assoc; reflexivity |].
        split.
        { intros i Hi. destruct i as [| i].
          - exists a. rewrite Nat.add_0_r. exact Hdns.
          - replace (start + S i) with (S start + i) by lia. apply Hres. lia. }
        split.
        { intros Hlt. replace (start + S k) with (S start + k) by lia. apply Hstop. lia. }
        split; [rewrite Hd; cbn [dns_log seq map Nat.min]; rewrite <- app_assoc; reflexivity |].
        split; [rewrite Hh; reflexivity |].
        rewrite Ho. cbn [stdout seq map]. rewrite <- !app_assoc. cbn [app].
        replace (start + S k) with (S (start + k)) by lia.
        cbn [Nat.eqb Nat.add]. rewrite !andb_false_r. reflexivity.
      * right. exists (S k), e, st'. split; [lia |]. split; [exact Hrun |].
        split.
        { intros i Hi. destruct i as [| i].
          - exists a. rewrite Nat.add_0_r. exact Hdns.
          - replace (start + S i) with (S start + i) by lia. apply Hres. lia. }
        replace (start + S k) with (S start + k) by lia.
        split; [exact He |]. split; [exact Hg |].
        split; [rewrite Hd; cbn [dns_log seq map]; rewrite <- app_assoc; reflexivity |].
        rewrite Hh. reflexivity.
Qed.

Lemma discover_cases st :
  (exists k st',
     k <= 10 /\
     discover_bitcoin_pods st = (Ok (map endpoint (seq 0 k)), st') /\
     (forall i, i < k -> resolves (endpoint i)) /\
     (k < 10 -> unknown_host (endpoint k)) /\
     dns_log st' = dns_log st ++ map endpoint (seq 0 (Nat.min (S k) 10)) /\
     http_log st' = http_log st /\
     stdout st' =
       stdout st ++ map discovered_line (map endpoint (seq 0 k))
       ++ (if (k =? 0)%nat then [none_from_line (endpoint 0); none_discovered_line]
           else [])) \/
  (exists k e st',
     k < 10 /\
     discover_bitcoin_pods st = (Raise e, st') /\
     (forall i, i < k -> resolves (endpoint i)) /\
     gethostbyname (endpoint k) = inl e /\
     is_gaierror e = false /\
     dns_log st' = dns_log st ++ map endpoint (seq 0 (S k)) /\
     http_log st' = http_log st).
Proof.
  unfold discover_bitcoin_pods. cbv zeta.
  destruct (discover_loop_inv (getenv "BITCOIN_SERVICE_NAME" "bitcoin-stack")
              (getenv "BITCOIN_SERVICE_NAME" "bitcoin-stack" +:+ "." +:+
               getenv "BITCOIN_NAMESPACE" "bitcoin" +:+ ".svc.cluster.local")
              10 0 [] st)
    as [(k & st1 & Hk & Hrun & Hres & Hstop & Hd & Hh & Ho)
       | (k & e & st1 & Hk & Hrun & Hres & He & Hg & Hd & Hh)].
  - left. exists k. cbn [app] in Hrun.
    erewrite bind_ok by exact Hrun.
    destruct k as [| k].
    + eexists. split; [lia |]. split; [reflexivity |].
      split; [exact Hres |]. split; [exact Hstop |].
      cbn [dns_log http_log stdout print bind ret fst snd].
      split; [exact Hd |]. split; [exact Hh |].
      rewrite Ho. cbn [seq map app Nat.ltb Nat.leb Nat.eqb Nat.add andb].
      rewrite <- app_assoc. reflexivity.
    + exists st1. split; [lia |]. split; [reflexivity |].
      split; [exact Hres |]. split; [exact Hstop |].
      split; [exact Hd |]. split; [exact Hh |].
      rewrite Ho. cbn [Nat.eqb Nat.add]. rewrite andb_false_r. reflexivity.
  - right. exists k, e, st1. split; [exact Hk |].
    split; [erewrite bind_raise by exact Hrun; reflexivity |].
    split; [exact Hres |]. split; [exact He |]. split; [exact Hg |].
    split; [exact Hd | exact Hh].
Qed.

(** X1: whenever discovery returns, what it returns is the names of the
    ordinals 0 to k-1 for some k <= 10, each of which resolved; if k < 10 the
    name of ordinal k was answered with [gaierror]; the names probed are
    those of ordinals 0 to k (0 to 9 when k = 10), in order; and no RPC
    request was made. *)
Theorem discovered_pods_are_resolving_prefix st found st' :
  discover_bitcoin_pods st = (Ok found, st') ->
  exists k,
    k <= 10 /\
    found = map endpoint (seq 0 k) /\
    (forall i, i < k -> resolves (endpoint i)) /\
    (k < 10 -> unknown_host (endpoint k)) /\
    dns_log st' = dns_log st ++ map endpoint (seq 0 (Nat.min (S k) 10)) /\
    http_log st' = http_log st.
Proof.
  intros Hrun.
  destruct (discover_cases st)
    as [(k & st1 & Hk & Hrun1 & Hres & Hstop & Hd & Hh & _)
       | (k & e & st1 & _ & Hrun1 & _)]; rewrite Hrun in Hrun1; [| discriminate].
  injection Hrun1 as -> ->.
  exists k. repeat split; assumption.
Qed.

(** X2: whenever discovery returns, it has printed one line
    [Discovered Bitcoin pod: <name>] per pod found, in order, and, when it
    found none, the two warnings that name the pod of ordinal 0 and the
    service; it prints nothing else. *)
Theorem discovery_diagnostics st found st' :
  discover_bitcoin_pods st = (Ok found, st') ->
  stdout st' =
    stdout st ++ map discovered_line found
    ++ (match found with
        | [] => [none_from_line (endpoint 0); none_discovered_line]
        | _ :: _ => []
        end).
Proof.
  intros Hrun.
  destruct (discover_cases st)
    as [(k & st1 & Hk & Hrun1 & _ & _ & _ & _ & Ho)
       | (k & e & st1 & _ & Hrun1 & _)]; rewrite Hrun in Hrun1; [| discriminate].
  injection Hrun1 as -> ->.
  rewrite Ho. destruct k; reflexivity.
Qed.

(** X3: discovery never raises [gaierror].  When it raises, the exception is
    the one the resolver raised for the first name that did not resolve, of
    another class than [gaierror]; the names before it resolved and no RPC
    request was made. *)
Theorem discovery_raises_only_foreign_errors st e st' :
  discover_bitcoin_pods st = (Raise e, st') ->
  is_gaierror e = false /\
  exists k,
    k < 10 /\
    gethostbyname (endpoint k) = inl e /\
    (forall i, i < k -> resolves (endpoint i)) /\
    dns_log st' = dns_log st ++ map endpoint (seq 0 (S k)) /\
    http_log st' = http_log st.
Proof.
  intros Hrun.
  destruct (discover_cases st)
    as [(k & st1 & _ & Hrun1 & _)
       | (k & e1 & st1 & Hk & Hrun1 & Hres & He & Hg & Hd & Hh)];
    rewrite Hrun in Hrun1; [discriminate |].
  injection Hrun1 as -> ->.
  split; [exact Hg |]. exists k. repeat split; assumption.
Qed.

(** ** What a collection does to the network *)

Lemma get_pod_metrics_effects pod_host st :
  exists st',
    get_pod_metrics pod_host st = (Ok (record_for pod_host), st') /\
    http_log st' = http_log st ++ pod_requests pod_host /\
    dns_log st' = dns_log st /\
    stdout st' = stdout st.
Proof.
  destruct (get_pod_metrics_value pod_host st) as [st0 Hval].
  rewrite Hval. exists st0. split; [reflexivity |].
  revert Hval. generalize (record_for pod_host). intros r0.
  unfold pod_requests, get_pod_metrics, chain_result, peer_result, network_result, try_except.
  set (d := rpc_value "getblockchaininfo" VNone (Some pod_host)).
  set (p := rpc_value "getpeerinfo" VNone (Some pod_host)).
  set (n := rpc_value "getnetworkinfo" VNone (Some pod_host)).
  erewrite bind_ok by apply make_bitcoin_rpc_call_run. fold d.
  match goal with |- context [bind ?c _ ?s] =>
    destruct (chain_phase_run d s) as [e1 H1] end.
  destruct (not_a_mapping d).
  { erewrite bind_raise by exact H1. erewrite bind_ok by apply first_label_run.
    intros H. injection H as _ <-. cbn [logged http_log dns_log stdout].
    rewrite app_nil_r. repeat split. }
  erewrite bind_ok by exact H1.
  erewrite bind_ok by apply make_bitcoin_rpc_call_run. fold p.
  match goal with |- context [bind (if truthy p then _ else _) _ ?s] =>
    destruct (peer_phase_run p s) as [e2 H2] end.
  destruct (not_sized p).
  { erewrite bind_raise by exact H2. erewrite bind_ok by apply first_label_run.
    intros H. injection H as _ <-. cbn [logged http_log dns_log stdout].
    rewrite app_nil_r, <- app_assoc. repeat split. }
  erewrite bind_ok by exact H2.
  erewrite bind_ok by apply make_bitcoin_rpc_call_run. fold n.
  match goal with |- context [bind (if truthy n then _ else _) _ ?s] =>
    destruct (network_phase_run n s) as [e3 H3] end.
  destruct (not_a_mapping n).
  { erewrite bind_raise by exact H3. erewrite bind_ok by apply first_label_run.
    intros H. injection H as _ <-. cbn [logged http_log dns_log stdout].
    rewrite <- !app_assoc. repeat split. }
  erewrite bind_ok by exact H3.
  erewrite bind_ok by apply first_label_run.
  intros H. injection H as _ <-. cbn [logged http_log dns_log stdout].
  rewrite <- !app_assoc. repeat split.
Qed.

Lemma call_log_length method params target_host :
  length (call_log method params target_host) <= 1.
Proof. unfold call_log. destruct (rpc_request_for _ _ _); cbn; lia. Qed.


Lemma pod_requests_bounds pod_host : length (pod_requests pod_host) <= 3.
Proof.
  unfold pod_requests.
  pose proof (call_log_length "getblockchaininfo" VNone (Some pod_host)).
  pose proof (call_log_length "getpeerinfo" VNone (Some pod_host)).
  pose proof (call_log_length "getnetworkinfo" VNone (Some pod_host)).
  destruct (not_a_mapping _); [rewrite app_nil_r; lia |].
  destruct (not_sized _); rewrite !length_app; cbn [length]; lia.
Qed.


(** ** A whole scrape *)

Lemma take_from_perm {A} (queues : list (list A)) :
  forall i x queues',
    take_from i queues = Some (x, queues') ->
    Permutation (concat queues) (x :: concat queues').
Proof.
  induction queues as [| q rest IH]; intros i x queues' H; [discriminate |].
  destruct q as [| y q]; cbn [take_from] in H.
  - destruct (take_from i rest) as [[z rest'] |] eqn:E; [| discriminate].
    injection H as <- <-. cbn [concat app]. exact (IH _ _ _ E).
  - destruct i as [| i].
    + injection H as <- <-. reflexivity.
    + destruct (take_from i rest) as [[z rest'] |] eqn:E.
      * injection H as <- <-. cbn [concat].
        rewrite (IH _ _ _ E). symmetry. apply Permutation_middle.
      * injection H as <- <-. reflexivity.
Qed.

Lemma take_from_none {A} (queues : list (list A)) :
  forall i, take_from i queues = None -> concat queues = [].
Proof.
  induction queues as [| q rest IH]; intros i H; [reflexivity |].
  destruct q as [| y q]; cbn [take_from] in H.
  - destruct (take_from i rest) as [[z rest'] |] eqn:E; [discriminate |].
    exact (IH _ E).
  - destruct i as [| i]; [discriminate |].
    destruct (take_from i rest) as [[z rest'] |]; discriminate.
Qed.

Lemma interleave_perm {A} (choose : nat -> nat) fuel :
  forall t (queues : list (list A)),
    length (concat queues) = fuel ->
    Permutation (interleave fuel choose t queues) (concat queues).
Proof.
  induction fuel as [| fuel IH]; intros t queues Hlen.
  - destruct (concat queues); [reflexivity | discriminate].
  - cbn [interleave].
    destruct (take_from (choose t) queues) as [[x queues'] |] eqn:E.
    + pose proof (take_from_perm _ _ _ _ E) as HP.
      rewrite HP. apply perm_skip. apply IH.
      apply Permutation_length in HP. cbn [length] in HP. lia.
    + apply take_from_none in E. rewrite E in Hlen. discriminate.
Qed.

Lemma merge_logs_perm {A} (choose : nat -> nat) (queues : list (list A)) :
  Permutation (merge_logs choose queues) (concat queues).
Proof. apply interleave_perm. reflexivity. Qed.

Lemma merge_logs_single {A} (choose : nat -> nat) (q : list A) :
  merge_logs choose [q] = q.
Proof.
  unfold merge_logs. cbn [concat]. rewrite app_nil_r.
  generalize 0. induction q as [| x q IH]; intros t; [reflexivity |].
  cbn [length interleave take_from].
  destruct (choose t); rewrite IH; reflexivity.
Qed.

Lemma merge_logs_silent {A B} (choose : nat -> nat) (l : list B) :
  merge_logs choose (map (fun _ => @nil A) l) = [].
Proof.
  apply Permutation_nil. symmetry. rewrite merge_logs_perm.
  induction l as [| x l IH]; [reflexivity | exact IH].
Qed.

Lemma submit_effects pod_host :
  http_log (snd (submit get_pod_metrics pod_host)) = pod_requests pod_host /\
  dns_log (snd (submit get_pod_metrics pod_host)) = [] /\
  stdout (snd (submit get_pod_metrics pod_host)) = [].
Proof.
  destruct (get_pod_metrics_effects pod_host no_effects) as (st' & H & Hh & Hd & Ho).
  unfold submit. rewrite H. cbn [snd]. repeat split; assumption.
Qed.

Lemma submit_all_effects pods st :
  exists st' sent,
    submit_all pick get_pod_metrics pods st =
      (Ok (map (fun h => Ok (record_for h)) pods), st') /\
    http_log st' = http_log st ++ sent /\
    Permutation sent (flat_map pod_requests pods) /\
    (forall h, pods = [h] -> sent = pod_requests h) /\
    dns_log st' = dns_log st /\
    stdout st' = stdout st.
Proof.
  destruct (submit_all_run pods st) as [st' Hrun].
  exists st', (merge_logs pick (map pod_requests pods)).
  split; [exact Hrun |].
  unfold submit_all in Hrun. injection Hrun as _ <-.
  cbn [http_log dns_log stdout]. rewrite !map_map.
  rewrite (map_ext _ pod_requests) by (intros h; apply submit_effects).
  rewrite (map_ext (fun h => dns_log _) (fun _ => [])) by (intros h; apply submit_effects).
  rewrite (map_ext (fun h => stdout _) (fun _ => [])) by (intros h; apply submit_effects).
  rewrite !merge_logs_silent, !app_nil_r.
  split; [reflexivity |].
  split; [rewrite merge_logs_perm, flat_map_concat_map; reflexivity |].
  split; [intros h ->; apply merge_logs_single |].
  split; reflexivity.
Qed.

Lemma collect_all_effects pods st :
  pods <> [] ->
  exists ms st' sent,
    collect_all pods st = (Ok ms, st') /\
    Permutation ms (map record_for pods) /\
    http_log st' = http_log st ++ sent /\
    Permutation sent (flat_map pod_requests pods) /\
    (forall h, pods = [h] -> sent = pod_requests h) /\
    dns_log st' = dns_log st /\
    stdout st' = stdout st.
Proof.
  intros Hne. unfold collect_all, ThreadPoolExecutor.
  destruct pods as [| h pods]; [congruence |].
  cbn [length Nat.eqb]. run_monad.
  destruct (submit_all_effects (h :: pods) st) as (st1 & sent & H1 & Hh & Hs & H1s & Hd & Ho).
  rewrite H1.
  pose proof (as_completed_perm (map (fun h => Ok (record_for h)) (h :: pods))) as HP.
  rewrite <- (map_map record_for Ok) in HP.
  apply Permutation_map_inv in HP as (ms & Hms & Hperm).
  rewrite <- (map_map record_for Ok), Hms, gather_values.
  exists ms, st1, sent. split; [reflexivity |]. split; [symmetry; exact Hperm |].
  repeat split; assumption.
Qed.

Lemma pods_used_nonempty pods : pods_used pods <> [].
Proof. destruct pods; discriminate. Qed.

Lemma collect_metrics_ok st pods st1 :
  discover_bitcoin_pods st = (Ok pods, st1) ->
  exists ms st2 sent,
    collect_metrics st = (Ok ms, st2) /\
    Permutation ms (map record_for (pods_used pods)) /\
    http_log st2 = http_log st1 ++ sent /\
    Permutation sent (flat_map pod_requests (pods_used pods)) /\
    (forall h, pods_used pods = [h] -> sent = pod_requests h) /\
    dns_log st2 = dns_log st1.
Proof.
  intros Hdisc. unfold collect_metrics.
  erewrite bind_ok by exact Hdisc.
  destruct (collect_all_effects (pods_used pods)
              {| http_log := http_log st1; dns_log := dns_log st1;
                 stdout := (stdout st1
                            ++ match pods with
                               | [] => ["Using fallback pod: " +:+ fallback_host]
                               | _ :: _ => []
                               end)
                            ++ ["Collecting metrics from "
                                +:+ str_of_nat (length (pods_used pods))
                                +:+ " Bitcoin pods"] |}
              (pods_used_nonempty pods))
    as (ms & st2 & sent & Hrun & Hperm & Hh & Hs & H1s & Hd & _).
  exists ms, st2, sent.
  split; [| split; [exact Hperm | split; [exact Hh | split; [exact Hs | split;
             [exact H1s | exact Hd]]]]].
  rewrite <- Hrun. destruct pods as [| h pods]; run_monad;
    rewrite ?app_nil_r; reflexivity.
Qed.

Lemma collect_metrics_raise st e st1 :
  discover_bitcoin_pods st = (Raise e, st1) -> collect_metrics st = (Raise e, st1).
Proof. intros H. unfold collect_metrics. erewrite bind_raise by exact H. reflexivity. Qed.

Lemma do_GET_metrics_ok st ms st2 :
  collect_metrics st = (Ok ms, st2) ->
  do_GET "/metrics" st = (Ok (metrics_answer ms), st2).
Proof. intros H. cbn [do_GET String.eqb Ascii.eqb Bool.eqb]. run_monad. rewrite H. reflexivity. Qed.

Lemma do_GET_metrics_error st e st1 :
  collect_metrics st = (Raise e, st1) ->
  do_GET "/metrics" st =
    (Ok {| status := 500; headers := []; body := "Error: " +:+ exn_msg e |}, st1).
Proof. intros H. cbn [do_GET String.eqb Ascii.eqb Bool.eqb]. run_monad. rewrite H. reflexivity. Qed.

Lemma metrics_answer_status ms :
  status (metrics_answer ms) = 200%Z /\
  headers (metrics_answer ms) = [("Content-type", "text/plain")] /\
  (utf8_valid (render ms) = true -> metrics_answer ms = metrics_response ms) /\
  (utf8_valid (render ms) = false ->
   body (metrics_answer ms) =
     response_head 500 +:+ "Error: " +:+ encode_message (render ms)).
Proof.
  unfold metrics_answer, py_encode, metrics_response.
  destruct (utf8_valid (render ms)); repeat split; try reflexivity; discriminate.
Qed.

Lemma pod_requests_total_bounds pods :
  length (flat_map pod_requests pods) <= 3 * length pods.
Proof.
  induction pods as [| h pods IH]; [cbn; lia |].
  cbn [flat_map length]. rewrite length_app.
  pose proof (pod_requests_bounds h). lia.
Qed.

Lemma discover_raises_at st k e :
  k < 10 ->
  (forall i, i < k -> resolves (endpoint i)) ->
  gethostbyname (endpoint k) = inl e ->
  is_gaierror e = false ->
  exists st',
    discover_bitcoin_pods st = (Raise e, st') /\
    dns_log st' = dns_log st ++ map endpoint (seq 0 (S k)) /\
    http_log st' = http_log st.
Proof.
  intros Hk Hres He Hg.
  destruct (discover_cases st)
    as [(k1 & st1 & Hk1 & Hrun & Hres1 & Hstop & _)
       | (k1 & e1 & st1 & Hk1 & Hrun & Hres1 & He1 & Hg1 & Hd & Hh)].
  - exfalso. destruct (Nat.lt_trichotomy k1 k) as [Hlt | [-> | Hgt]].
    + destruct Hstop as (e0 & He0 & _); [lia |].
      destruct (Hres k1 Hlt) as [a Ha]. congruence.
    + destruct Hstop as (e0 & He0 & Hg0); [lia |]. congruence.
    + destruct (Hres1 k Hgt) as [a Ha]. congruence.
  - destruct (Nat.lt_trichotomy k1 k) as [Hlt | [-> | Hgt]].
    + exfalso. destruct (Hres k1 Hlt) as [a Ha]. congruence.
    + assert (e1 = e) as -> by congruence.
      exists st1. split; [exact Hrun | split; assumption].
    + exfalso. destruct (Hres1 k Hgt) as [a Ha]. congruence.
Qed.

Lemma discover_keeps_http_log st pods st1 :
  discover_bitcoin_pods st = (Ok pods, st1) -> http_log st1 = http_log st.
Proof.
  intros Hdisc.
  destruct (discover_cases st)
    as [(k & st' & _ & Hrun1 & _ & _ & _ & Hlog & _) | (k & e & st' & _ & Hrun1 & _)];
    rewrite Hdisc in Hrun1; [| discriminate].
  injection Hrun1 as _ <-. exact Hlog.
Qed.

(** X5: whenever discovery returns, the scrape is answered with the status
    line 200 and [Content-type: text/plain], whatever the RPC calls did.  The
    records are those of the pods used (the pods found, or the pod of
    ordinal 0 when none was found), in some order; when their rendering
    encodes, the body is that rendering; when it does not, the body is what
    the [except] branch writes after the head already sent, the 500 head and
    [Error: ] with the message of the encoder.  The RPC requests sent are
    those of the pods used, interleaved in some way, and no further name is
    resolved with [gethostbyname]. *)
Theorem scrape_answers_200_when_discovery_returns st pods st1 :
  discover_bitcoin_pods st = (Ok pods, st1) ->
  exists ms st2 resp sent,
    do_GET "/metrics" st = (Ok resp, st2) /\
    Permutation ms (map record_for (pods_used pods)) /\
    status resp = 200%Z /\
    headers resp = [("Content-type", "text/plain")] /\
    (utf8_valid (render ms) = true -> body resp = render ms) /\
    (utf8_valid (render ms) = false ->
     body resp = response_head 500 +:+ "Error: " +:+ encode_message (render ms)) /\
    http_log st2 = http_log st ++ sent /\
    Permutation sent (flat_map pod_requests (pods_used pods)) /\
    dns_log st2 = dns_log st1.
Proof.
  intros Hdisc.
  destruct (collect_metrics_ok st pods st1 Hdisc)
    as (ms & st2 & sent & Hrun & Hperm & Hh & Hs & _ & Hd).
  destruct (metrics_answer_status ms) as (Hst & Hhd & Hok & Hbad).
  exists ms, st2, (metrics_answer ms), sent.
  split; [apply do_GET_metrics_ok; exact Hrun |].
  split; [exact Hperm |]. split; [exact Hst |]. split; [exact Hhd |].
  split; [intros Hv; rewrite (Hok Hv); reflexivity |].
  split; [exact Hbad |].
  split; [rewrite Hh, (discover_keeps_http_log _ _ _ Hdisc); reflexivity |].
  split; [exact Hs | exact Hd].
Qed.

(** X6: when the names of ordinals 0 to k-1 resolve and the resolver raises,
    for the name of ordinal k < 10, an exception of another class than
    [gaierror], the scrape is answered 500 without header, the body being
    [Error: ] followed by the message of that exception; no RPC request is
    sent and no fallback pod is tried. *)
Theorem scrape_answers_500_on_foreign_resolver_error st k e :
  k < 10 ->
  (forall i, i < k -> resolves (endpoint i)) ->
  gethostbyname (endpoint k) = inl e ->
  is_gaierror e = false ->
  exists st',
    do_GET "/metrics" st =
      (Ok {| status := 500; headers := []; body := "Error: " +:+ exn_msg e |}, st') /\
    http_log st' = http_log st /\
    dns_log st' = dns_log st ++ map endpoint (seq 0 (S k)).
Proof.
  intros Hk Hres He Hg.
  destruct (discover_raises_at st k e Hk Hres He Hg) as (st' & Hrun & Hd & Hh).
  exists st'. split; [| split; assumption].
  apply do_GET_metrics_error, collect_metrics_raise. exact Hrun.
Qed.

(** X7: the handler never raises.  Every GET is answered with a status
    line 200, 404 or 500, 404 exactly for a path other than [/metrics] and
    [/health]; and one GET calls [gethostbyname] at most 10 times and sends
    at most 30 RPC requests. *)
Theorem handler_total_and_bounded path st :
  exists resp st',
    do_GET path st = (Ok resp, st') /\
    (status resp = 200%Z \/ status resp = 404%Z \/ status resp = 500%Z) /\
    (status resp = 404%Z <-> path <> "/metrics" /\ path <> "/health") /\
    length (dns_log st') <= length (dns_log st) + 10 /\
    length (http_log st') <= length (http_log st) + 30.
Proof.
  destruct (String.eqb_spec path "/metrics") as [-> | Hm].
  - destruct (discover_cases st)
      as [(k & st1 & Hk & Hrun & _ & _ & Hd & Hh & _)
         | (k & e & st1 & Hk & Hrun & _ & _ & _ & Hd & Hh)].
    + destruct (collect_metrics_ok st _ st1 Hrun)
        as (ms & st2 & sent & Hc & Hperm & Hh2 & Hs & _ & Hd2).
      destruct (metrics_answer_status ms) as (Hst & _).
      eexists. exists st2. split; [apply do_GET_metrics_ok; exact Hc |].
      rewrite Hst.
      split; [left; reflexivity |].
      split; [split; [discriminate | intros [H _]; congruence] |].
      rewrite Hd2, Hd, Hh2, Hh, !length_app, length_map, length_seq.
      rewrite (Permutation_length Hs).
      pose proof (pod_requests_total_bounds (pods_used (map endpoint (seq 0 k)))) as Hb.
      assert (length (pods_used (map endpoint (seq 0 k))) <= 10).
      { destruct k; cbn [pods_used seq map length]; [lia |].
        rewrite length_map, length_seq. lia. }
      lia.
    + eexists. exists st1.
      split; [apply do_GET_metrics_error, collect_metrics_raise; exact Hrun |].
      cbn [status].
      split; [right; right; reflexivity |].
      split; [split; [discriminate | intros [H _]; congruence] |].
      rewrite Hd, Hh, length_app, length_map, length_seq. lia.
  - destruct (String.eqb_spec path "/health") as [-> | Hh].
    + eexists. exists st. split; [reflexivity |]. cbn [status].
      split; [left; reflexivity |].
      split; [split; [discriminate | intros [_ H]; congruence] | lia].
    + eexists. exists st.
      split.
      { unfold do_GET. apply String.eqb_neq in Hm, Hh. rewrite Hm, Hh. reflexivity. }
      cbn [status].
      split; [right; left; reflexivity |].
      split; [split; [intros _; split; assumption | reflexivity] | lia].
Qed.

(** ** Labels, keys and counts *)

Lemma first_label_props s :
  contains_char "."%char (hd EmptyString (split_on "."%char s)) = false /\
  exists rest,
    s = hd EmptyString (split_on "."%char s) +:+ rest /\
    (rest = EmptyString \/ starts_with "." rest = true).
Proof.
  induction s as [| c s IH].
  - split; [reflexivity |]. exists EmptyString. split; [reflexivity | left; reflexivity].
  - cbn [split_on]. destruct (Ascii.eqb c "."%char) eqn:Hc.
    + apply Ascii.eqb_eq in Hc as ->. cbn [hd]. split; [reflexivity |].
      exists (String "."%char s). split; [reflexivity | right; reflexivity].
    + destruct IH as (Hfree & rest & Hs & Hrest).
      destruct (split_on "."%char s) as [| w ws] eqn:Hsplit;
        [exfalso; exact (split_on_nonempty _ _ Hsplit) |].
      cbn [hd] in *. split; [cbn [contains_char]; rewrite Hc, Hfree; reflexivity |].
      exists rest. split; [rewrite append_cons, <- Hs; reflexivity | exact Hrest].
Qed.

Lemma first_label_of_prefix a b :
  contains_char "."%char a = false ->
  hd EmptyString (split_on "."%char (a +:+ "." +:+ b)) = a.
Proof.
  induction a as [| c a IH]; intros Ha; [reflexivity |].
  cbn [contains_char] in Ha. apply orb_false_iff in Ha as [Hc Ha].
  rewrite append_cons. cbn [split_on]. rewrite Hc.
  specialize (IH Ha).
  destruct (split_on "."%char (a +:+ "." +:+ b)) as [| w ws] eqn:Hsplit;
    [exfalso; exact (split_on_nonempty _ _ Hsplit) |].
  cbn [hd] in *. rewrite IH. reflexivity.
Qed.

Lemma digits_have_no_dot u : contains_char "."%char (NilEmpty.string_of_uint u) = false.
Proof. induction u; cbn [NilEmpty.string_of_uint contains_char]; try exact IHu; reflexivity. Qed.

Lemma pod_record_for pod_host :
  pod (record_for pod_host) = hd EmptyString (split_on "."%char pod_host).
Proof.
  destruct (get_pod_metrics_run pod_host no_effects) as [st0 Hrun0].
  unfold record_for. rewrite Hrun0. cbn [fst]. unfold assemble.
  destruct (not_a_mapping _ || not_sized _ || not_a_mapping _); reflexivity.
Qed.

(** X8: the label of a record is the text of the pod host before its first
    dot: it holds no dot, and the host is the label followed by nothing or
    by a text that starts with a dot; the record keeps the host as given.
    For the pod of ordinal [i] of a service whose name holds no dot the label
    is [<service>-<i>]. *)
Theorem record_label_is_first_host_label pod_host st :
  exists r st',
    get_pod_metrics pod_host st = (Ok r, st') /\
    host r = pod_host /\
    contains_char "."%char (pod r) = false /\
    (exists rest,
       pod_host = pod r +:+ rest /\ (rest = EmptyString \/ starts_with "." rest = true)) /\
    (forall i,
       contains_char "."%char (getenv "BITCOIN_SERVICE_NAME" "bitcoin-stack") = false ->
       pod_host = endpoint i ->
       pod r = getenv "BITCOIN_SERVICE_NAME" "bitcoin-stack" +:+ "-" +:+ str_of_nat i).
Proof.
  destruct (get_pod_metrics_value pod_host st) as [st' Hrun].
  exists (record_for pod_host), st'. split; [exact Hrun |].
  split; [apply host_record_for |].
  rewrite pod_record_for.
  destruct (first_label_props pod_host) as [Hfree Hrest].
  split; [exact Hfree |]. split; [exact Hrest |].
  intros i Hs ->. unfold endpoint. cbv zeta.
  set (service := getenv "BITCOIN_SERVICE_NAME" "bitcoin-stack") in *.
  transitivity
    (hd EmptyString
       (split_on "."%char
          ((service +:+ "-" +:+ str_of_nat i) +:+ "." +:+ service +:+ "." +:+
           getenv "BITCOIN_NAMESPACE" "bitcoin" +:+ ".svc.cluster.local")));
    [rewrite !append_assoc; reflexivity |].
  apply first_label_of_prefix.
  rewrite !contains_char_app, Hs. cbn [contains_char orb Ascii.eqb Bool.eqb].
  apply digits_have_no_dot.
Qed.

(** X9: with a blockchain result that is a non-empty mapping (and peer and
    network results that do not raise) the record is healthy and each of
    blocks, difficulty and verification progress is the member of that name
    when the mapping has one, whatever its value ([None] included), and 0
    only when the member is missing; likewise connections from a non-empty
    network mapping. *)
Theorem missing_member_defaults_to_zero pod_host d st :
  chain_result pod_host = VDict d ->
  truthy (VDict d) = true ->
  not_sized (peer_result pod_host) = false ->
  not_a_mapping (network_result pod_host) = false ->
  exists r st',
    get_pod_metrics pod_host st = (Ok r, st') /\
    healthy r = true /\
    blocks r = match d !! "blocks" with Some x => x | None => VInt 0 end /\
    difficulty r = match d !! "difficulty" with Some x => x | None => VInt 0 end /\
    verification_progress r =
      match d !! "verificationprogress" with Some x => x | None => VInt 0 end /\
    (d !! "blocks" = Some VNone -> blocks r = VNone) /\
    (forall nd, network_result pod_host = VDict nd -> truthy (VDict nd) = true ->
       connections r = match nd !! "connections" with Some x => x | None => VInt 0 end).
Proof.
  intros Hd Ht Hp Hn.
  destruct (get_pod_metrics_run pod_host st) as [st' Hrun].
  eexists. exists st'. split; [exact Hrun |].
  unfold assemble. rewrite Hd, Hp, Hn.
  assert (Hm : not_a_mapping (VDict d) = false)
    by (unfold not_a_mapping; rewrite andb_false_r; reflexivity).
  rewrite Hm. cbn [orb plain_record healthy blocks difficulty verification_progress
                   connections is_not_None].
  unfold field_of. rewrite Ht. cbn [py_get].
  split; [reflexivity |]. split; [reflexivity |]. split; [reflexivity |].
  split; [reflexivity |].
  split; [intros ->; reflexivity |].
  intros nd Hnd Htn. rewrite Hnd, Htn. reflexivity.
Qed.

(** X10: with a peer result that is a list (and blockchain and network
    results that do not raise) the peer count of the record is the length of
    the list, 0 for the empty list; with a mapping it is its number of
    keys. *)
Theorem peer_count_is_length pod_host st :
  not_a_mapping (chain_result pod_host) = false ->
  not_a_mapping (network_result pod_host) = false ->
  exists r st',
    get_pod_metrics pod_host st = (Ok r, st') /\
    (forall l, peer_result pod_host = VList l -> peers r = VInt (Z.of_nat (length l))) /\
    (forall m, peer_result pod_host = VDict m -> peers r = VInt (Z.of_nat (size m))).
Proof.
  intros Hd Hn.
  destruct (get_pod_metrics_run pod_host st) as [st' Hrun].
  eexists. exists st'. split; [exact Hrun |].
  unfold assemble. rewrite Hd, Hn.
  split.
  - intros l ->. destruct l; reflexivity.
  - intros m ->. unfold not_sized. cbn [py_len]. rewrite andb_false_r.
    cbn [orb plain_record peers]. unfold count_of. cbn [py_len truthy].
    destruct (size m); reflexivity.
Qed.

(** X11: the pool refuses an empty list of pods: collecting from no pod
    raises [ValueError] before any request is sent, and collecting from a
    non-empty list returns as many records as there are pods. *)
Theorem collect_all_needs_a_pod pods st :
  (pods = [] ->
   collect_all pods st = (Raise (Exn ValueError "max_workers must be greater than 0"), st)) /\
  (pods <> [] ->
   exists ms st', collect_all pods st = (Ok ms, st') /\ length ms = length pods).
Proof.
  split.
  - intros ->. reflexivity.
  - intros Hne.
    destruct (collect_all_effects pods st Hne) as (ms & st' & sent & Hrun & Hperm & _).
    exists ms, st'. split; [exact Hrun |].
    rewrite (Permutation_length Hperm), length_map. reflexivity.
Qed.

Lemma str_or_nonempty h default :
  h <> EmptyString -> str_or (Some h) default = h.
Proof. intros Hh. unfold str_or. apply String.eqb_neq in Hh. rewrite Hh. reflexivity. Qed.

Lemma rpc_request_shape method params target_host req :
  rpc_request_for method params target_host = inr req ->
  req_url req =
    "http://"
    +:+ str_or target_host (getenv "BITCOIN_HOST" "bitcoin-stack.bitcoin.svc.cluster.local")
    +:+ ":" +:+ getenv "BITCOIN_PORT" "18332" /\
  map fst (req_headers req) = ["Content-type"; "Authorization"].
Proof.
  unfold rpc_request_for. cbv zeta.
  destruct (request_rejects _); [discriminate |].
  destruct (py_encode _); [discriminate |].
  intros H. injection H as <-. split; reflexivity.
Qed.

Lemma call_log_Forall (P : request * Z -> Prop) method params target_host :
  (forall req, rpc_request_for method params target_host = inr req -> P (req, 10%Z)) ->
  Forall P (call_log method params target_host).
Proof.
  intros H. unfold call_log.
  destruct (rpc_request_for method params target_host) as [e | req];
    [constructor |].
  constructor; [apply H; reflexivity | constructor].
Qed.

Lemma pod_requests_Forall (P : request * Z -> Prop) pod_host :
  (forall method req,
     rpc_request_for method VNone (Some pod_host) = inr req -> P (req, 10%Z)) ->
  Forall P (pod_requests pod_host).
Proof.
  intros H. unfold pod_requests.
  repeat first [apply Forall_app; split | apply call_log_Forall; apply H
               | match goal with |- Forall _ (if ?b then _ else _) => destruct b end
               | apply List.Forall_nil].
Qed.

(** X12: every request a collection sends goes to the pod host itself,
    [http://<pod host>:<BITCOIN_PORT or 18332>], with a timeout of 10 and
    two headers, stored by [add_header] under the keys [Content-type] and
    [Authorization]; an empty pod host is replaced by [BITCOIN_HOST] or its
    default. *)
Theorem collect_requests_target pod_host st :
  exists r st' sent,
    get_pod_metrics pod_host st = (Ok r, st') /\
    http_log st' = http_log st ++ sent /\
    Forall
      (fun q =>
         req_url (fst q) =
           "http://"
           +:+ (if String.eqb pod_host EmptyString
                then getenv "BITCOIN_HOST" "bitcoin-stack.bitcoin.svc.cluster.local"
                else pod_host)
           +:+ ":" +:+ getenv "BITCOIN_PORT" "18332" /\
         map fst (req_headers (fst q)) = ["Content-type"; "Authorization"] /\
         snd q = 10%Z)
      sent.
Proof.
  destruct (get_pod_metrics_effects pod_host st) as (st' & Hrun & Hh & _).
  exists (record_for pod_host), st', (pod_requests pod_host).
  split; [exact Hrun |]. split; [exact Hh |].
  apply pod_requests_Forall. intros method req Hreq.
  destruct (rpc_request_shape _ _ _ _ Hreq) as [Hurl Hkeys].
  cbn [fst snd]. rewrite Hurl, Hkeys. repeat split.
Qed.

Lemma append_cons_nonempty a c b : a +:+ String c b <> EmptyString.
Proof. destruct a; discriminate. Qed.

(** X13: when the name of ordinal 0 is unknown to the resolver, the scrape
    falls back on that same name: after one call of [gethostbyname] it
    collects the single record of the pod of ordinal 0, and every RPC request
    it sends is addressed to the name that did not resolve. *)
Theorem fallback_queries_the_unresolved_name st :
  unknown_host (endpoint 0) ->
  exists st',
    collect_metrics st = (Ok [record_for (endpoint 0)], st') /\
    dns_log st' = dns_log st ++ [endpoint 0] /\
    http_log st' = http_log st ++ pod_requests (endpoint 0) /\
    Forall (fun q => req_url (fst q) =
                       "http://" +:+ endpoint 0 +:+ ":" +:+ getenv "BITCOIN_PORT" "18332")
      (pod_requests (endpoint 0)).
Proof.
  intros Hstop.
  edestruct (discover_loop_stops (getenv "BITCOIN_SERVICE_NAME" "bitcoin-stack")
               (getenv "BITCOIN_SERVICE_NAME" "bitcoin-stack" +:+ "." +:+
                getenv "BITCOIN_NAMESPACE" "bitcoin" +:+ ".svc.cluster.local")
               0 0 10 [] st) as (st0 & Hloop & Hd0 & _);
    [lia | intros i Hi; lia | exact Hstop |].
  destruct (discover_run_of_loop _ _ _ Hloop) as (st1 & Hdisc & Hd1 & Hh1).
  destruct (collect_metrics_ok st [] st1 Hdisc)
    as (ms & st2 & sent & Hrun & Hperm & Hh & _ & H1s & Hd).
  cbn [pods_used map] in Hperm.
  apply Permutation_sym, Permutation_length_1_inv in Hperm. subst ms.
  exists st2. split; [exact Hrun |].
  split; [rewrite Hd, Hd1, Hd0; reflexivity |].
  split.
  { rewrite Hh, (H1s _ eq_refl), (discover_keeps_http_log _ _ _ Hdisc). reflexivity. }
  assert (Hne : endpoint 0 <> EmptyString).
  { unfold endpoint. cbv zeta. apply append_cons_nonempty. }
  apply pod_requests_Forall. intros method req Hreq.
  destruct (rpc_request_shape _ _ _ _ Hreq) as [Hurl _].
  cbn [fst]. rewrite Hurl, (str_or_nonempty _ _ Hne). reflexivity.
Qed.

Lemma rpc_value_of_mapping method params target_host req b d :
  rpc_request_for method params target_host = inr req ->
  urlopen req 10 = inr b ->
  json_loads b = inr (VDict d) ->
  rpc_value method params target_host =
    match d !! "result" with Some x => x | None => VNone end.
Proof.
  intros Hr Hu Hj. unfold rpc_value, make_bitcoin_rpc_call, no_effects. run_monad.
  rewrite Hr, Hu, Hj. reflexivity.
Qed.

Lemma count_of_nonneg v : exists n, count_of v = VInt n /\ (0 <= n)%Z.
Proof.
  unfold count_of. destruct (truthy v); [| exists 0%Z; split; [reflexivity | lia]].
  destruct v; cbn [py_len]; eexists; (split; [reflexivity | lia]).
Qed.

(** X15: in every record a collection returns the peer count is a
    non-negative integer, and an unhealthy record has blocks, difficulty and
    verification progress at 0: a figure read from the blockchain result is
    never reported without the health flag. *)
Theorem record_invariants pod_host st :
  exists r st',
    get_pod_metrics pod_host st = (Ok r, st') /\
    (exists n, peers r = VInt n /\ (0 <= n)%Z) /\
    (healthy r = false ->
     blocks r = VInt 0 /\ difficulty r = VInt 0 /\ verification_progress r = VInt 0).
Proof.
  destruct (get_pod_metrics_run pod_host st) as [st' Hrun].
  eexists. exists st'. split; [exact Hrun |].
  unfold assemble.
  destruct (not_a_mapping (chain_result pod_host) || not_sized (peer_result pod_host)
            || not_a_mapping (network_result pod_host)).
  - split; [exists 0%Z; split; [reflexivity | lia] | repeat split].
  - cbn [plain_record peers healthy blocks difficulty verification_progress].
    split; [apply count_of_nonneg |].
    destruct (chain_result pod_host); try discriminate. repeat split.
Qed.

End Exporter.

(** ** A present result that is falsy *)

(** C9: there is a blockchain result that is present and falsy, the empty
    mapping, and a node that gives it, for which the record is healthy while
    blocks, difficulty and verification progress are all 0.  In general the
    numbers are read only from a truthy result whereas the flag asks only
    that the result is not [None]: with any present, falsy blockchain result
    (and peer and network results that do not raise) the record is healthy
    with these three fields at 0. *)
Theorem present_falsy_result_healthy_zero_numerics :
  (exists environ urlopen json_loads json_dumps b64encode request_rejects encode_message pod_host r st',
     chain_result environ urlopen json_loads json_dumps b64encode request_rejects encode_message pod_host = VDict ∅ /\
     is_not_None (VDict ∅) = true /\ truthy (VDict ∅) = false /\
     get_pod_metrics environ urlopen json_loads json_dumps b64encode request_rejects encode_message pod_host no_effects
       = (Ok r, st') /\
     healthy r = true /\ blocks r = VInt 0 /\ difficulty r = VInt 0 /\
     verification_progress r = VInt 0) /\
  (forall environ urlopen json_loads json_dumps b64encode request_rejects encode_message pod_host st,
     chain_result environ urlopen json_loads json_dumps b64encode request_rejects encode_message pod_host <> VNone ->
     truthy (chain_result environ urlopen json_loads json_dumps b64encode request_rejects encode_message pod_host) = false ->
     not_sized (peer_result environ urlopen json_loads json_dumps b64encode request_rejects encode_message pod_host) = false ->
     not_a_mapping (network_result environ urlopen json_loads json_dumps b64encode request_rejects encode_message pod_host)
       = false ->
     exists r st',
       get_pod_metrics environ urlopen json_loads json_dumps b64encode request_rejects encode_message pod_host st
         = (Ok r, st') /\
       healthy r = true /\ blocks r = VInt 0 /\ difficulty r = VInt 0 /\
       verification_progress r = VInt 0).
Proof.
  split; [| exact present_falsy_run].
  exists environ_empty, (net_chain_only "empty-dict"), loads_tags, dumps_method, b64_stub,
    url_ok, encode_stub, pod0.
  destruct (present_falsy_run environ_empty (net_chain_only "empty-dict") loads_tags
              dumps_method b64_stub url_ok encode_stub pod0 no_effects) as (r & st' & Hrun & Hrest);
    try (vm_compute; congruence).
  exists r, st'. repeat split; try (vm_compute; reflexivity); try exact Hrun; apply Hrest.
Qed.

(** ** The statements at work on concrete worlds *)

Lemma present_falsy_result_witness :
  exists r st',
    get_pod_metrics environ_empty (net_chain_only "empty-dict") loads_tags dumps_method
      b64_stub url_ok encode_stub pod0 no_effects = (Ok r, st') /\
    healthy r = true /\ blocks r = VInt 0.
Proof.
  destruct (proj2 present_falsy_result_healthy_zero_numerics environ_empty
              (net_chain_only "empty-dict") loads_tags dumps_method b64_stub url_ok encode_stub pod0 no_effects)
    as (r & st' & Hrun & Hh & Hb & _).
  - vm_compute. discriminate.
  - vm_compute. reflexivity.
  - vm_compute. reflexivity.
  - vm_compute. reflexivity.
  - exists r, st'. split; [exact Hrun |]. split; [exact Hh | exact Hb].
Defined.

Lemma scrape_record_count_witness :
  (exists ms st2,
     collect_metrics environ_empty net_down loads_tags dumps_method b64_stub url_ok encode_stub dns_two
       finish_reverse pick_turns no_effects = (Ok ms, st2) /\
     length ms = 2 /\
     Permutation (map host ms) [pod0; pod1]) /\
  (exists ms st2,
     collect_metrics environ_empty net_down loads_tags dumps_method b64_stub url_ok encode_stub dns_none
       finish_same pick_first no_effects = (Ok ms, st2) /\
     length ms = 1 /\
     map host ms = [pod0]).
Proof.
  split.
  - destruct (scrape_collects_one_record_per_endpoint environ_empty net_down loads_tags
                dumps_method b64_stub url_ok encode_stub dns_two finish_reverse pick_turns no_effects [pod0; pod1]
                (snd (discover_bitcoin_pods environ_empty dns_two no_effects)))
      as (ms & st2 & Hrun & _ & Hlen & _ & Hhosts & _).
    + vm_compute. reflexivity.
    + exists ms, st2. split; [exact Hrun |]. split; [exact Hlen | exact Hhosts].
  - destruct (scrape_collects_one_record_per_endpoint environ_empty net_down loads_tags
                dumps_method b64_stub url_ok encode_stub dns_none finish_same pick_first no_effects []
                (snd (discover_bitcoin_pods environ_empty dns_none no_effects)))
      as (ms & st2 & Hrun & _ & Hlen & _ & _ & _ & Hone).
    + vm_compute. reflexivity.
    + exists ms, st2. split; [exact Hrun |]. split; [exact Hlen |].
      rewrite (Hone eq_refl). vm_compute. reflexivity.
Defined.

Lemma collect_chain_down_witness :
  exists r st',
    get_pod_metrics environ_empty net_chain_down loads_tags dumps_method b64_stub url_ok encode_stub pod0
      no_effects = (Ok r, st') /\
    blocks r = VInt 0 /\ healthy r = false /\ peers r = VInt 2 /\ connections r = VInt 5.
Proof.
  destruct (collect_total_failures_isolated environ_empty net_chain_down loads_tags
              dumps_method b64_stub url_ok encode_stub pod0 no_effects)
    as (r & st' & Hrun & _ & Hchain & _ & _ & Hplain).
  destruct Hchain as (Hb & _ & _ & Hh); [vm_compute; reflexivity |].
  destruct Hplain as (_ & _ & _ & _ & Hp & Hc); try (vm_compute; reflexivity).
  exists r, st'. split; [exact Hrun |].
  split; [exact Hb |]. split; [exact Hh |].
  split; [rewrite Hp | rewrite Hc]; vm_compute; reflexivity.
Defined.


Lemma discover_stops_and_caps_witness :
  (exists st',
     discover_bitcoin_pods environ_empty dns_two no_effects = (Ok [pod0; pod1], st') /\
     dns_log st' = [pod0; pod1; pod2]) /\
  (exists st',
     discover_bitcoin_pods environ_empty dns_all no_effects
       = (Ok (map (endpoint environ_empty) (seq 0 10)), st') /\
     length (dns_log st') = 10).
Proof.
  split.
  - destruct (proj1 (discover_contiguous_and_capped environ_empty dns_two no_effects) 2)
      as (st' & Hrun & _ & Hlog).
    + lia.
    + intros i Hi. exists "10.0.0.1".
      destruct i as [| [| i]]; [reflexivity | reflexivity | lia].
    + exists (Exn gaierror "Name or service not known"). split; reflexivity.
    + exists st'. split; [exact Hrun | exact Hlog].
  - destruct (proj2 (discover_contiguous_and_capped environ_empty dns_all no_effects))
      as (st' & Hrun & _ & Hlog & _).
    + intros i _. exists "10.0.0.1". reflexivity.
    + exists st'. split; [exact Hrun |]. rewrite Hlog. reflexivity.
Defined.

Lemma rpc_call_absent_witness :
  (exists st',
     make_bitcoin_rpc_call environ_empty (net_const "no-result") loads_tags dumps_method
       b64_stub url_ok encode_stub "getpeerinfo" VNone (Some pod0) no_effects
       = (Ok VNone, st') /\
     length (http_log st') = 1) /\
  (exists st',
     make_bitcoin_rpc_call environ_empty net_down loads_tags dumps_method
       b64_stub url_ok encode_stub "getblockchaininfo" VNone (Some pod0) no_effects
       = (Ok VNone, st') /\
     length (http_log st') = 1) /\
  (exists st',
     make_bitcoin_rpc_call environ_empty (net_const "five") loads_tags dumps_method
       b64_stub url_rejected encode_stub "getblockchaininfo" VNone (Some pod0) no_effects
       = (Ok VNone, st') /\
     http_log st' = []).
Proof.
  split; [| split].
  - destruct (rpc_call_at_most_one_attempt_never_raises environ_empty (net_const "no-result")
                loads_tags dumps_method b64_stub url_ok encode_stub "getpeerinfo" VNone
                (Some pod0) no_effects)
      as (v & st' & Hrun & _ & _ & _ & Hbuilt & _).
    edestruct Hbuilt as (Hlog & _ & _ & _ & Hmissing & _); [reflexivity |].
    exists st'. rewrite Hrun, Hlog.
    rewrite (Hmissing "no-result" {[ "error" := VStr "boom" ]});
      [split; reflexivity | reflexivity | reflexivity | vm_compute; reflexivity].
  - destruct (rpc_call_at_most_one_attempt_never_raises environ_empty net_down
                loads_tags dumps_method b64_stub url_ok encode_stub "getblockchaininfo" VNone
                (Some pod0) no_effects)
      as (v & st' & Hrun & _ & _ & _ & Hbuilt & _).
    edestruct Hbuilt as (Hlog & Hfail & _); [reflexivity |].
    exists st'. rewrite Hrun, Hlog.
    rewrite (Hfail (Exn URLError "Connection refused")); [split |]; reflexivity.
  - destruct (rpc_call_at_most_one_attempt_never_raises environ_empty (net_const "five")
                loads_tags dumps_method b64_stub url_rejected encode_stub "getblockchaininfo"
                VNone (Some pod0) no_effects)
      as (v & st' & Hrun & _ & _ & _ & _ & Hrejected).
    destruct (Hrejected (Exn ValueError "Invalid IPv6 URL")) as (Hlog & Hv);
      [reflexivity |].
    exists st'. rewrite Hrun, Hlog, Hv. split; reflexivity.
Defined.

Lemma render_sample_record_witness :
  length (lines_of (render repr_stub [sample_record])) = 18 /\
  utf8_valid (render repr_stub [sample_record]) = true /\
  ends_with_nl (render repr_stub [sample_record]) = true.
Proof.
  destruct (render_blocks_well_formed repr_stub [sample_record])
    as (_ & Hnl & _ & _ & Hlines & Hutf); [discriminate |].
  destruct Hlines as (_ & Hlen & _); [repeat constructor |].
  split; [exact Hlen |].
  split; [apply Hutf; repeat constructor | exact Hnl].
Defined.


Lemma unknown_path_witness :
  do_GET environ_empty net_down loads_tags dumps_method b64_stub url_ok encode_stub dns_none repr_stub head_stub
    finish_same pick_first "/nonexistent" no_effects =
  (Ok {| status := 404; headers := []; body := EmptyString |}, no_effects).
Proof.
  apply (proj1 (unknown_path_404_and_health_ok environ_empty net_down loads_tags
                  dumps_method b64_stub url_ok encode_stub dns_none repr_stub head_stub finish_same pick_first "/nonexistent"
                  no_effects)); discriminate.
Defined.

(** ** Where the specification says more than the code does *)

(** C4 as worded fails when the name of ordinal [k] fails to resolve with
    an exception other than [socket.gaierror]: here the resolver raises
    [UnicodeError] for the name of ordinal 0 ([k = 0], nothing resolves), and
    discovery raises that exception instead of returning the empty list. *)
Lemma discover_raises_on_unresolved_ordinal :
  (forall ip, dns_bad_label (endpoint environ_empty 0) <> inr ip) /\
  fst (discover_bitcoin_pods environ_empty dns_bad_label no_effects)
    = Raise (Exn UnicodeError "label empty or too long") /\
  (forall st', discover_bitcoin_pods environ_empty dns_bad_label no_effects <> (Ok [], st')).
Proof.
  split; [intros ip; discriminate |].
  split; [vm_compute; reflexivity |].
  intros st' H. apply (f_equal fst) in H. vm_compute in H. discriminate.
Qed.

(** C5 as worded fails when the request cannot be built: with a password
    that does not encode, [credentials.encode()] raises inside the [try]
    before [urlopen] is reached, and the call returns [None] after no attempt
    at all, although the node would have answered. *)
Lemma rpc_call_without_attempt :
  (forall request, net_const "five" request 10%Z = inr "five") /\
  loads_tags "five" = inr (envelope (VInt 5)) /\
  make_bitcoin_rpc_call environ_bad_password (net_const "five") loads_tags dumps_method
    b64_stub url_ok encode_stub "getblockchaininfo" VNone (Some pod0) no_effects
    = (Ok VNone, no_effects) /\
  http_log no_effects = [].
Proof.
  split; [reflexivity |]. split; [reflexivity |].
  split; [vm_compute; reflexivity | reflexivity].
Qed.


(** Against C6 as worded: a record whose pod name holds a line break is
    rendered on 24 lines instead of 18, and six of them are neither a
    comment nor a sample; the scrape itself produces such a text when the
    configured service name holds a line break and the fallback pod is
    used. *)
Lemma render_breaks_lines_of_broken_name :
  length (lines_of (render repr_stub [broken_name_record])) = 24 /\
  forallb (fun l => is_comment l || is_sample l)
    (lines_of (render repr_stub [broken_name_record])) = false /\
  option_map
    (fun resp => (status resp,
                  forallb (fun l => is_comment l || is_sample l) (lines_of (body resp))))
    (value_of (fst (do_GET environ_broken_name net_down loads_tags dumps_method b64_stub url_ok encode_stub
                      dns_none repr_stub head_stub finish_same pick_first "/metrics" no_effects)))
    = Some (200%Z, false).
Proof. repeat split; vm_compute; reflexivity. Qed.


(** ** More of the exporter at work *)

(** X14: the value of a call depends on the [result] member of the decoded
    envelope only: the same envelope with another [error] member gives the
    same value, so a reported RPC error is seen only through a missing or
    null result, which gives [None]. *)
Theorem error_member_is_ignored environ urlopen json_loads json_loads' json_dumps
    b64encode request_rejects encode_message method params target_host req b d e st :
  rpc_request_for environ json_dumps b64encode request_rejects encode_message
    method params target_host = inr req ->
  urlopen req 10%Z = inr b ->
  json_loads b = inr (VDict d) ->
  json_loads' b = inr (VDict (<[ "error" := e ]> d)) ->
  exists v st1 st2,
    make_bitcoin_rpc_call environ urlopen json_loads json_dumps b64encode request_rejects
      encode_message method params target_host st = (Ok v, st1) /\
    make_bitcoin_rpc_call environ urlopen json_loads' json_dumps b64encode request_rejects
      encode_message method params target_host st = (Ok v, st2) /\
    v = match d !! "result" with Some x => x | None => VNone end /\
    (d !! "result" = Some VNone -> v = VNone).
Proof.
  intros Hr Hu Hj Hj'.
  rewrite !make_bitcoin_rpc_call_run.
  rewrite (rpc_value_of_mapping _ _ _ _ _ _ _ _ _ _ req b d Hr Hu Hj).
  rewrite (rpc_value_of_mapping _ _ _ _ _ _ _ _ _ _ req b _ Hr Hu Hj').
  rewrite lookup_insert_ne by discriminate.
  eexists _, _, _. split; [reflexivity |]. split; [reflexivity |].
  split; [reflexivity |]. intros ->. reflexivity.
Qed.

Lemma error_member_witness :
  exists v st1 st2,
    make_bitcoin_rpc_call environ_empty (net_const "chain") loads_tags dumps_method
      b64_stub url_ok encode_stub "getblockchaininfo" VNone (Some pod0) no_effects
      = (Ok v, st1) /\
    make_bitcoin_rpc_call environ_empty (net_const "chain") loads_with_error dumps_method
      b64_stub url_ok encode_stub "getblockchaininfo" VNone (Some pod0) no_effects
      = (Ok v, st2) /\
    is_not_None v = true.
Proof.
  pose proof (fun req =>
                error_member_is_ignored environ_empty (net_const "chain") loads_tags
                  loads_with_error dumps_method b64_stub url_ok encode_stub
                  "getblockchaininfo" VNone (Some pod0) req "chain"
                  {[ "result" := VDict {[ "blocks" := VInt 800000; "difficulty" := VInt 1;
                                          "verificationprogress" := VFloat one_float ]};
                     "error" := VNone ]}
                  (VStr "boom") no_effects) as H.
  edestruct H as (v & st1 & st2 & H1 & H2 & Hv & _).
  - reflexivity.
  - reflexivity.
  - vm_compute. reflexivity.
  - vm_compute. reflexivity.
  - exists v, st1, st2. split; [exact H1 |]. split; [exact H2 |].
    rewrite Hv. vm_compute. reflexivity.
Defined.

Lemma discovered_prefix_witness :
  exists k, k <= 10 /\ [pod0; pod1] = map (endpoint environ_empty) (seq 0 k).
Proof.
  destruct (discovered_pods_are_resolving_prefix environ_empty dns_two no_effects
              [pod0; pod1] (snd (discover_bitcoin_pods environ_empty dns_two no_effects)))
    as (k & Hk & Hf & _).
  - vm_compute. reflexivity.
  - exists k. split; assumption.
Defined.

Lemma discovery_diagnostics_witness :
  stdout (snd (discover_bitcoin_pods environ_empty dns_none no_effects)) =
  [none_from_line pod0; none_discovered_line environ_empty].
Proof.
  apply (discovery_diagnostics environ_empty dns_none no_effects []).
  vm_compute. reflexivity.
Defined.

Lemma discovery_raises_witness :
  is_gaierror (Exn UnicodeError "label empty or too long") = false /\
  exists k, k < 10 /\
    dns_one_then_bad (endpoint environ_empty k)
      = inl (Exn UnicodeError "label empty or too long").
Proof.
  destruct (discovery_raises_only_foreign_errors environ_empty dns_one_then_bad no_effects
              (Exn UnicodeError "label empty or too long")
              (snd (discover_bitcoin_pods environ_empty dns_one_then_bad no_effects)))
    as (Hg & k & Hk & He & _).
  - vm_compute. reflexivity.
  - split; [exact Hg |]. exists k. split; assumption.
Defined.


Lemma scrape_200_witness :
  exists (ms : list metrics) st2 resp sent,
    do_GET environ_empty net_down loads_tags dumps_method b64_stub url_ok encode_stub
      dns_two repr_stub head_stub finish_reverse pick_turns "/metrics" no_effects
      = (Ok resp, st2) /\
    status resp = 200%Z /\
    headers resp = [("Content-type", "text/plain")] /\
    length ms = 2 /\
    http_log st2 = sent /\
    length sent = 6.
Proof.
  destruct (scrape_answers_200_when_discovery_returns environ_empty net_down loads_tags
              dumps_method b64_stub url_ok encode_stub dns_two repr_stub head_stub
              finish_reverse pick_turns no_effects
              [pod0; pod1] (snd (discover_bitcoin_pods environ_empty dns_two no_effects)))
    as (ms & st2 & resp & sent & Hrun & Hperm & Hst & Hhd & _ & _ & Hlog & Hsent & _).
  - vm_compute. reflexivity.
  - exists ms, st2, resp, sent. split; [exact Hrun |].
    split; [exact Hst |]. split; [exact Hhd |].
    split; [rewrite (Permutation_length Hperm); reflexivity |].
    split; [exact Hlog |].
    rewrite (Permutation_length Hsent). vm_compute. reflexivity.
Defined.

Lemma scrape_500_witness :
  exists st',
    do_GET environ_empty net_down loads_tags dumps_method b64_stub url_ok encode_stub dns_bad_label repr_stub head_stub
      finish_same pick_first "/metrics" no_effects =
      (Ok {| status := 500; headers := [];
             body := "Error: label empty or too long" |}, st') /\
    http_log st' = [].
Proof.
  destruct (scrape_answers_500_on_foreign_resolver_error environ_empty net_down loads_tags
              dumps_method b64_stub url_ok encode_stub dns_bad_label repr_stub head_stub finish_same pick_first no_effects 0
              (Exn UnicodeError "label empty or too long"))
    as (st' & Hrun & Hh & _).
  - lia.
  - intros i Hi. lia.
  - reflexivity.
  - reflexivity.
  - exists st'. split; [exact Hrun | exact Hh].
Defined.

Lemma handler_total_witness :
  exists resp st',
    do_GET environ_empty net_down loads_tags dumps_method b64_stub url_ok encode_stub dns_none repr_stub head_stub
      finish_same pick_first "/nope" no_effects = (Ok resp, st') /\
    status resp = 404%Z.
Proof.
  destruct (handler_total_and_bounded environ_empty net_down loads_tags dumps_method
              b64_stub url_ok encode_stub dns_none repr_stub head_stub finish_same pick_first "/nope" no_effects)
    as (resp & st' & Hrun & _ & Hiff & _).
  exists resp, st'. split; [exact Hrun |].
  apply Hiff. split; discriminate.
Defined.

Lemma record_label_witness :
  exists r st',
    get_pod_metrics environ_empty net_down loads_tags dumps_method b64_stub url_ok encode_stub
      (endpoint environ_empty 3) no_effects = (Ok r, st') /\
    pod r = "bitcoin-stack-3".
Proof.
  destruct (record_label_is_first_host_label environ_empty net_down loads_tags dumps_method
              b64_stub url_ok encode_stub (endpoint environ_empty 3) no_effects)
    as (r & st' & Hrun & _ & _ & _ & Hlabel).
  exists r, st'. split; [exact Hrun |].
  apply (Hlabel 3); reflexivity.
Defined.

Lemma missing_member_witness :
  exists r st',
    get_pod_metrics environ_empty (net_chain_only "progress-two") loads_tags dumps_method
      b64_stub url_ok encode_stub pod0 no_effects = (Ok r, st') /\
    healthy r = true /\ blocks r = VInt 1 /\ difficulty r = VInt 0.
Proof.
  destruct (missing_member_defaults_to_zero environ_empty (net_chain_only "progress-two")
              loads_tags dumps_method b64_stub url_ok encode_stub pod0
              {[ "blocks" := VInt 1; "verificationprogress" := VFloat two_float ]}
              no_effects)
    as (r & st' & Hrun & Hh & Hb & Hd & _); try (vm_compute; reflexivity).
  exists r, st'. split; [exact Hrun |]. split; [exact Hh |].
  split; [rewrite Hb | rewrite Hd]; vm_compute; reflexivity.
Defined.

Lemma peer_count_witness :
  exists r st',
    get_pod_metrics environ_empty net_chain_down loads_tags dumps_method b64_stub url_ok encode_stub pod0
      no_effects = (Ok r, st') /\
    peers r = VInt 2.
Proof.
  destruct (peer_count_is_length environ_empty net_chain_down loads_tags dumps_method
              b64_stub url_ok encode_stub pod0 no_effects)
    as (r & st' & Hrun & Hlist & _); try (vm_compute; reflexivity).
  exists r, st'. split; [exact Hrun |].
  apply (Hlist [VDict ∅; VDict ∅]). vm_compute. reflexivity.
Defined.

Lemma collect_all_witness :
  collect_all environ_empty net_down loads_tags dumps_method b64_stub url_ok encode_stub finish_same pick_first []
    no_effects = (Raise (Exn ValueError "max_workers must be greater than 0"), no_effects) /\
  exists ms st',
    collect_all environ_empty net_down loads_tags dumps_method b64_stub url_ok encode_stub finish_same pick_first [pod0]
      no_effects = (Ok ms, st') /\
    length ms = 1.
Proof.
  split.
  - apply (proj1 (collect_all_needs_a_pod environ_empty net_down loads_tags dumps_method
                    b64_stub url_ok encode_stub finish_same pick_first [] no_effects)). reflexivity.
  - apply (proj2 (collect_all_needs_a_pod environ_empty net_down loads_tags dumps_method
                    b64_stub url_ok encode_stub finish_same pick_first [pod0] no_effects)). discriminate.
Defined.

Lemma fallback_witness :
  exists st',
    collect_metrics environ_empty net_down loads_tags dumps_method b64_stub url_ok
      encode_stub dns_none finish_same pick_first no_effects
      = (Ok [record_for environ_empty net_down loads_tags dumps_method b64_stub url_ok
               encode_stub pod0], st') /\
    dns_log st' = [pod0] /\
    map (fun q => req_url (fst q)) (http_log st')
      = ["http://bitcoin-stack-0.bitcoin-stack.bitcoin.svc.cluster.local:18332";
         "http://bitcoin-stack-0.bitcoin-stack.bitcoin.svc.cluster.local:18332";
         "http://bitcoin-stack-0.bitcoin-stack.bitcoin.svc.cluster.local:18332"].
Proof.
  destruct (fallback_queries_the_unresolved_name environ_empty net_down loads_tags
              dumps_method b64_stub url_ok encode_stub dns_none finish_same pick_first
              no_effects)
    as (st' & Hrun & Hd & Hh & _).
  - exists (Exn gaierror "Name or service not known"). split; reflexivity.
  - exists st'. split; [exact Hrun |]. split; [exact Hd |].
    rewrite Hh. vm_compute. reflexivity.
Defined.

Lemma record_invariants_witness :
  exists r st',
    get_pod_metrics environ_empty net_chain_down loads_tags dumps_method b64_stub url_ok encode_stub pod0
      no_effects = (Ok r, st') /\
    blocks r = VInt 0 /\ difficulty r = VInt 0.
Proof.
  destruct (record_invariants environ_empty net_chain_down loads_tags dumps_method
              b64_stub url_ok encode_stub pod0 no_effects)
    as (r & st' & Hrun & _ & Hzero).
  exists r, st'. split; [exact Hrun |].
  assert (Hh : healthy r = false).
  { assert (Hr : Ok r = fst (get_pod_metrics environ_empty net_chain_down loads_tags
                               dumps_method b64_stub url_ok encode_stub pod0 no_effects))
      by (rewrite Hrun; reflexivity).
    vm_compute in Hr. injection Hr as ->. reflexivity. }
  destruct (Hzero Hh) as (Hb & Hd & _). split; assumption.
Defined.
